(** * PaddleHub: text-generation task and keypoint-detection module

    A shallow embedding of
    - [paddlehub/compat/task/text_generation_task.py]
      ([AttentionDecoderCell], [TextGenerationTask]), and
    - the unit tests of the hub module
      [human_pose_estimation_resnet50_mpii] ([test.py]),
    followed by the properties proved about them.

    Python exceptions are values of [exn]; a computation that may raise
    returns [res A].  Python lists are [list]; integer arrays fetched from
    the executor are flat row-major lists of [Z] together with their
    dimensions, with the fixed-width casts written out. *)

From Stdlib Require Import QArith.
From stdpp Require Import base numbers list strings gmap.

Local Open Scope string_scope.
Local Open Scope Z_scope.

(** ** Python exceptions and the error monad *)

Inductive exn : Type :=
| AssertionError (msg : string)
| AttributeError (msg : string)
| IndexError
| KeyError (key : string)
| TypeError (msg : string)
| ValueError (msg : string)
| ZeroDivisionError.

Inductive res (A : Type) : Type :=
| Ok (a : A)
| Raise (e : exn).
Arguments Ok {A} a.
Arguments Raise {A} e.

#[global] Instance res_ret : MRet res := fun A a => Ok a.

#[global] Instance res_bind : MBind res := fun A B k m =>
  match m with
  | Ok a => k a
  | Raise e => Raise e
  end.

#[global] Instance res_fmap : FMap res := fun A B f m =>
  match m with
  | Ok a => Ok (f a)
  | Raise e => Raise e
  end.

(** [f] applied to every element from left to right; the first exception
    aborts the traversal (a [for] loop or a list comprehension). *)
Fixpoint for_each {A B : Type} (f : A -> res B) (l : list A) : res (list B) :=
  match l with
  | [] => Ok []
  | a :: l' => b ← f a; bs ← for_each f l'; Ok (b :: bs)
  end.

(** A loop that threads an accumulator through its iterations. *)
Fixpoint for_fold {A S : Type} (f : S -> A -> res S) (s : S) (l : list A)
    : res S :=
  match l with
  | [] => Ok s
  | a :: l' => s' ← f s a; for_fold f s' l'
  end.

(** ** Python sequences *)

(** [l[i]]: negative indices count from the end, anything outside
    [-len, len) raises [IndexError]. *)
Definition py_getitem {A : Type} (l : list A) (i : Z) : res A :=
  let n := Z.of_nat (length l) in
  let j := if i <? 0 then i + n else i in
  if (j <? 0) || (n <=? j) then Raise IndexError
  else match l !! Z.to_nat j with
       | Some a => Ok a
       | None => Raise IndexError
       end.

(** A slice bound is clamped into [0, len]; a negative bound counts from
    the end. *)
Definition slice_bound (n i : Z) : Z :=
  if i <? 0 then Z.max (i + n) 0 else Z.min i n.

(** [l[start:stop]] *)
Definition py_slice {A : Type} (l : list A) (start stop : Z) : list A :=
  let n := Z.of_nat (length l) in
  let a := slice_bound n start in
  let b := slice_bound n stop in
  take (Z.to_nat (b - a)) (drop (Z.to_nat a) l).

(** [l[:stop]] *)
Definition py_slice_to {A : Type} (l : list A) (stop : Z) : list A :=
  py_slice l 0 stop.

(** [l.index(x)]: position of the first occurrence, [ValueError] when
    there is none. *)
Fixpoint find_index (x : string) (l : list string) : option nat :=
  match l with
  | [] => None
  | y :: l' => if decide (x = y) then Some O else S <$> find_index x l'
  end.

Definition py_index (l : list string) (x : string) : res Z :=
  match find_index x l with
  | Some i => Ok (Z.of_nat i)
  | None => Raise (ValueError ("'" +:+ x +:+ "' is not in list"))
  end.

(** [a // b] on integers: floor division. *)
Definition py_floordiv (a b : Z) : res Z :=
  if b =? 0 then Raise ZeroDivisionError else Ok (a / b).

(** [d[k] = v] on an [OrderedDict]: a present key keeps its position. *)
Fixpoint dict_set {V : Type} (d : list (string * V)) (k : string) (v : V)
    : list (string * V) :=
  match d with
  | [] => [(k, v)]
  | (k', v') :: d' =>
      if decide (k' = k) then (k, v) :: d' else (k', v') :: dict_set d' k v
  end.

(** [range(n)] for an integer [n]: empty when [n <= 0]. *)
Definition py_range (n : Z) : list Z :=
  Z.of_nat <$> seq 0 (Z.to_nat n).

(** ** numpy integer arrays *)

(** Two's-complement wrap-around of the fixed-width integer types. *)
Definition wrap (bits : Z) (z : Z) : Z :=
  (z + 2 ^ (bits - 1)) mod 2 ^ bits - 2 ^ (bits - 1).

Definition astype_int32 (z : Z) : Z := wrap 32 z.
Definition wrap64 (z : Z) : Z := wrap 64 z.

(** A two-dimensional integer array, row-major. *)
Record ndarray2 : Type := {
  nrows : nat;
  ncols : nat;
  data2 : list Z
}.

(** A three-dimensional integer array, row-major. *)
Record ndarray3 : Type := {
  dim0 : nat;
  dim1 : nat;
  dim2 : nat;
  data3 : list Z
}.

Definition wf_ndarray3 (a : ndarray3) : Prop :=
  length (data3 a) = (dim0 a * (dim1 a * dim2 a))%nat.

(** [a.astype(np.int32)] *)
Definition astype3_int32 (a : ndarray3) : ndarray3 :=
  {| dim0 := dim0 a; dim1 := dim1 a; dim2 := dim2 a;
     data3 := astype_int32 <$> data3 a |}.

(** Iterating over a 3-d array yields its [dim0] sub-matrices. *)
Definition subarrays (a : ndarray3) : list ndarray2 :=
  (fun i => {| nrows := dim1 a; ncols := dim2 a;
               data2 := take (dim1 a * dim2 a)%nat
                             (drop (i * (dim1 a * dim2 a))%nat (data3 a)) |})
    <$> seq 0 (dim0 a).

(** [m.T] *)
Definition transpose (m : ndarray2) : ndarray2 :=
  {| nrows := ncols m; ncols := nrows m;
     data2 := flat_map
                (fun j => (fun i => nth (i * ncols m + j)%nat (data2 m) 0)
                            <$> seq 0 (nrows m))
                (seq 0 (ncols m)) |}.

(** Iterating over a 2-d array yields its rows; [tolist] of a row is the
    list of its entries. *)
Definition rows (m : ndarray2) : list (list Z) :=
  (fun i => take (ncols m) (drop (i * ncols m)%nat (data2 m))) <$> seq 0 (nrows m).

(** [enumerate(l)] *)
Definition enumerate {A : Type} (l : list A) : list (Z * A) :=
  zip (Z.of_nat <$> seq 0 (length l)) l.

(** ** What the framework and the hub supply

    Tensor values, the float scalars of the loss and of the timing, the
    BLEU metric, the base class of the task and the checks the framework
    makes while a program is built live outside the two source files;
    they are taken as an interface. *)

(** The dataset object: only its [label_list] is read. *)
Record Dataset : Type := {
  label_list : list string
}.

(** A framework [Variable] handed to the task by its caller. *)
Record Var : Type := {
  var_name : string;
  var_shape : list Z;
  var_program : nat          (* [feature.block.program], an object handle *)
}.

(** The [metrics_choices] argument is a string or a list of names. *)
Inductive metrics_arg : Type :=
| MStr (s : string)
| MList (l : list string).

(** The part of [BaseTask]'s state that [TextGenerationTask] reads. *)
Record BaseTask : Type := {
  dataset : option Dataset;
  metrics_choices : list string;
  _label_list : list string;
  is_train_phase : bool;
  is_test_phase : bool;
  is_predict_phase : bool
}.

Class Paddle : Type := {
  F : Type;                                   (* float scalars *)
  f0 : F;
  fadd : F -> F -> F;
  fsub : F -> F -> F;
  fmul : F -> F -> F;
  fdiv : F -> F -> F;                         (* numpy division, total *)
  f_of_int : Z -> F;
  f_is_zero : F -> bool;
  np_mean : list F -> F;
  softmax_row : list F -> list F;             (* softmax of one vector *)
  tensor_bool : list (list F) -> bool;        (* truth value of a tensor *)
  softmax_row_length : forall v, length (softmax_row v) = length v
}.

Class Hub `{Paddle} : Type := {
  RunConfig : Type;
  BaseTask__init__ :
    option Dataset -> nat -> option nat -> option RunConfig -> metrics_arg ->
    BaseTask;
  (* [compute_bleu(reference, translation, max_order)]: a tuple whose
     first component is the score, or the exception the metric raises
     on the two corpora *)
  compute_bleu :
    list (list string) -> list (list string) -> Z -> res (F * list F)
}.

(** ** The static graph built by [_build_net]

    In static-graph mode every framework call returns a [Variable] that
    stands for the operation that defines it, or raises when the
    framework rejects the operation; a variable is modelled by that
    expression, and the checks of the framework are an interface. *)

Inductive initializer : Type :=
| Uniform (low high : Q)
| TruncatedNormal (std : Q)
| Constant (value : Q).

Record ParamAttr : Type := {
  pa_name : string;
  pa_initializer : option initializer
}.

Record LSTMCell : Type := {
  lstm_input_size : Z;
  lstm_hidden_size : Z
}.

Record AttentionDecoderCell : Type := {
  cell_num_layers : Z;
  cell_hidden_size : Z;
  cell_dropout_prob : Q;
  cell_lstm_cells : list LSTMCell;
  cell_init_scale : Q
}.

(** [lambda x: paddle.static.nn.embedding(input=x, ...)] *)
Record embedding_fn : Type := {
  emb_size : Z * Z;
  emb_dtype : string;
  emb_is_sparse : bool;
  emb_param_attr : ParamAttr
}.

(** [lambda x: paddle.static.nn.fc(x, size=..., weight_attr=...)] *)
Record output_fn : Type := {
  out_size : Z;
  out_weight_attr : ParamAttr
}.

Record BeamSearchDecoder : Type := {
  bsd_cell : AttentionDecoderCell;
  bsd_start_token : Z;
  bsd_end_token : Z;
  bsd_beam_size : Z;
  bsd_embedding_fn : embedding_fn;
  bsd_output_fn : output_fn
}.

#[warnings="-register-all"]
Inductive tensor : Type :=
| Input (v : Var)
| Data (name : string) (shape : list Z) (dtype : string)
| Squeeze (x : tensor)
| SequenceMask (x : tensor) (maxlen : Z) (dtype : string)
| SubScalar (x : tensor) (c : Q)
| Fc (x : tensor) (size : Z) (num_flatten_dims : Z)
     (weight_attr bias_attr : option ParamAttr)
| Embedding (x : tensor) (fn : embedding_fn)
| InitialStates (batch_ref : tensor) (shape : list Z)
| RnnOutput (cell : AttentionDecoderCell) (inputs : tensor)
            (lstm_states : list (tensor * tensor)) (input_feed : tensor)
            (enc_output enc_padding_mask : tensor)
| Argmax (x : tensor) (axis : Z)
| Reshape (x : tensor) (shape : list Z)
| Softmax (x : tensor)
| TileBeamMergeWithBatch (x : tensor) (beam_size : Z)
| DynamicDecode (decoder : BeamSearchDecoder)
                (lstm_states : list (tensor * tensor)) (input_feed : tensor)
                (max_step_num : Z) (enc_output enc_padding_mask : tensor)
(* the operations of [AttentionDecoderCell] *)
| Concat (xs : list tensor) (axis : Z)
| LstmH (cell : LSTMCell) (x h c : tensor)
| LstmC (cell : LSTMCell) (x h c : tensor)
| Dropout (x : tensor) (p : Q) (mode : string)
| Unsqueeze (x : tensor) (axes : list Z)
| Matmul (x y : tensor) (transpose_y : bool)
| Transpose (x : tensor) (perm : list Z)
| MulScalar (x : tensor) (c : Z)
| ElementwiseAdd (x y : tensor)
| SqueezeAxes (x : tensor) (axes : list Z)
(* the variables a recurrent layer or a decoder hands to its cell *)
| StepInput (inputs : tensor)
| StepState (init : tensor)
| BeamInputs (decoder : BeamSearchDecoder).

(** What [_build_net] returns: a list in the training phases, a single
    variable in the predict phase. *)
Inductive net_outputs : Type :=
| OutList (l : list tensor)
| OutVar (t : tensor).

(** The attributes [_build_net] sets on the task. *)
Record net_attrs : Type := {
  seq_len : tensor;
  seq_len_used : tensor;
  dec_input : option tensor;
  logits : option tensor;
  ret_infers : tensor
}.

(** The number of dimensions of a variable, where the way it is declared
    fixes it: [paddle.static.data] declares the shape it is given, an
    embedding adds the dimension of the embedding to the shape of the
    ids, and the variable of one step of a recurrent layer is its input
    without the time dimension.  [None] stands for a rank that only the
    framework knows. *)
Fixpoint static_rank (t : tensor) : option Z :=
  match t with
  | Data _ shape _ => Some (Z.of_nat (length shape))
  | Embedding x _ => (fun r => r + 1) <$> static_rank x
  | StepInput x => (fun r => r - 1) <$> static_rank x
  | _ => None
  end.

(** The framework that builds the program.  Every call that adds an
    operation checks it (types, shapes) and may raise; so may the
    constructor of [LSTMCell] and the truth value of a variable.  Two
    checks are known: [LSTMCell] wants a positive hidden size, and
    [paddle.concat] wants its axis within the rank of its first
    input. *)
Class StaticGraph : Type := {
  (* the exception raised when the operation is added, if any *)
  op_error : tensor -> option exn;
  (* [bool(x)] of a variable *)
  var_bool : tensor -> res bool;
  (* the exception raised by [LSTMCell(input_size, hidden_size)], if any *)
  LSTMCell_error : Z -> Z -> option exn;
  LSTMCell_hidden_size_positive : forall input_size hidden_size,
    hidden_size <= 0 ->
    exists msg, LSTMCell_error input_size hidden_size = Some (ValueError msg);
  concat_axis_within_rank : forall x xs axis r,
    static_rank x = Some r -> r <= axis ->
    exists msg, op_error (Concat (x :: xs) axis) = Some (ValueError msg)
}.

Section Graph.
Context `{StaticGraph}.

(** A framework call that adds the operation [t] to the program and
    returns its output variable. *)
Definition new_op (t : tensor) : res tensor :=
  match op_error t with
  | Some e => Raise e
  | None => Ok t
  end.

(** [LSTMCell(input_size=..., hidden_size=...)] *)
Definition LSTMCell__init__ (input_size hidden_size : Z) : res LSTMCell :=
  match LSTMCell_error input_size hidden_size with
  | Some e => Raise e
  | None => Ok {| lstm_input_size := input_size;
                  lstm_hidden_size := hidden_size |}
  end.

(** The call of an LSTM cell on an input and a pair of states: its
    output, which is the new hidden state, and the new pair. *)
Definition LSTMCell__call__ (cell : LSTMCell) (x : tensor)
    (state : tensor * tensor) : res (tensor * (tensor * tensor)) :=
  h ← new_op (LstmH cell x state.1 state.2);
  Ok (h, (h, LstmC cell x state.1 state.2)).

(** ** [AttentionDecoderCell] *)

(** [AttentionDecoderCell.__init__]; [init_scale] defaults to 0.1. *)
Definition AttentionDecoderCell__init__
    (num_layers input_size hidden_size : Z) (dropout_prob : Q)
    (init_scale : option Q) : res AttentionDecoderCell :=
  lstm_cells ←
    for_each (fun i =>
                LSTMCell__init__
                  (if i =? 0 then input_size + hidden_size else hidden_size)
                  hidden_size)
             (py_range num_layers);
  Ok {| cell_num_layers := num_layers;
        cell_hidden_size := hidden_size;
        cell_dropout_prob := dropout_prob;
        cell_lstm_cells := lstm_cells;
        cell_init_scale := default (1 # 10)%Q init_scale |}.
End Graph.

(** ** The cell while the program is built

    In a static graph a recurrent layer or a decoder calls the cell on
    the variables of one step; each framework call of [attention] and
    [forward] then adds an operation to the program.  The computation
    these operations stand for is embedded further down, on tensors. *)

Module Static.
Section Cell.
Context `{StaticGraph}.

(** [AttentionDecoderCell.attention]; the test [if mask:] is false for
    [None] and asks a variable for its truth value. *)
Definition attention (self : AttentionDecoderCell) (query enc_output : tensor)
    (mask : option tensor) : res tensor :=
  query ← new_op (Unsqueeze query [1]);
  memory ← new_op
    (Fc enc_output (cell_hidden_size self) 2
        (Some {| pa_name := "dec_memory_w";
                 pa_initializer :=
                   Some (Uniform (- cell_init_scale self)%Q
                                 (cell_init_scale self)) |})
        None);
  attn ← new_op (Matmul query memory true);
  attn ← match mask with
         | None => Ok attn
         | Some m =>
             taken ← var_bool m;
             if taken : bool then
               attn ← new_op (Transpose attn [1; 0; 2]);
               scaled ← new_op (MulScalar m 1000000000);
               attn ← new_op (ElementwiseAdd attn scaled);
               new_op (Transpose attn [1; 0; 2])
             else Ok attn
         end;
  weight ← new_op (Softmax attn);
  new_op (Matmul weight memory false).

(** The body of [for i in range(self.num_layers)]; the accumulator is
    [step_input] and [new_lstm_states]. *)
Definition forward_layer (self : AttentionDecoderCell)
    (lstm_states : list (tensor * tensor))
    (acc : tensor * list (tensor * tensor)) (i : Z)
    : res (tensor * list (tensor * tensor)) :=
  let '(step_input, new_lstm_states) := acc in
  cell ← py_getitem (cell_lstm_cells self) i;
  state ← py_getitem lstm_states i;
  '(out, new_lstm_state) ← LSTMCell__call__ cell step_input state;
  step_input ←
    (if Qlt_le_dec 0 (cell_dropout_prob self)
     then new_op (Dropout out (cell_dropout_prob self) "upscale_in_train")
     else Ok out);
  Ok (step_input, (new_lstm_states ++ [new_lstm_state])%list).

(** [AttentionDecoderCell.forward] *)
Definition forward (self : AttentionDecoderCell) (step_input : tensor)
    (states : list (tensor * tensor) * tensor) (enc_output : tensor)
    (enc_padding_mask : option tensor)
    : res (tensor * (list (tensor * tensor) * tensor)) :=
  let '(lstm_states, input_feed) := states in
  step_input ← new_op (Concat [step_input; input_feed] 1);
  '(step_input, new_lstm_states) ←
    for_fold (forward_layer self lstm_states) (step_input, [])
             (py_range (cell_num_layers self));
  dec_att ← attention self step_input enc_output enc_padding_mask;
  dec_att ← new_op (SqueezeAxes dec_att [1]);
  concat_att_out ← new_op (Concat [dec_att; step_input] 1);
  out ← new_op
    (Fc concat_att_out (cell_hidden_size self) 1
        (Some {| pa_name := "dec_out_w";
                 pa_initializer :=
                   Some (Uniform (- cell_init_scale self)%Q
                                 (cell_init_scale self)) |})
        None);
  Ok (out, (new_lstm_states, out)).
End Cell.
End Static.

Section Layers.
Context `{StaticGraph}.

(** The states of one step of a loop that starts from [inits]. *)
Definition step_states (inits : list (tensor * tensor) * tensor)
    : list (tensor * tensor) * tensor :=
  ((fun st => (StepState st.1, StepState st.2)) <$> inits.1,
   StepState inits.2).

(** [nn.RNN(cell, is_reverse=False, time_major=False)(inputs,
    initial_states, **kwargs)]: the layer calls the cell on the variables
    of one time step, with the keyword arguments it was given, and
    returns the outputs of all steps. *)
Definition RNN__call__ (cell : AttentionDecoderCell) (inputs : tensor)
    (initial_states : list (tensor * tensor) * tensor)
    (enc_output enc_padding_mask : tensor) : res tensor :=
  step_input ← new_op (StepInput inputs);
  _ ← Static.forward cell step_input (step_states initial_states)
                     enc_output (Some enc_padding_mask);
  new_op (RnnOutput cell inputs initial_states.1 initial_states.2
                    enc_output enc_padding_mask).

(** [dynamic_decode(decoder, inits=..., max_step_num=..., **kwargs)]:
    the decoder embeds the tokens of the beams, calls its cell on them
    and on the states tiled for the beams, with the keyword arguments it
    was given, and returns the ids it decodes. *)
Definition dynamic_decode (decoder : BeamSearchDecoder)
    (inits : list (tensor * tensor) * tensor) (max_step_num : Z)
    (enc_output enc_padding_mask : tensor) : res tensor :=
  let tile x := TileBeamMergeWithBatch x (bsd_beam_size decoder) in
  step_input ← new_op (BeamInputs decoder);
  _ ← Static.forward (bsd_cell decoder) step_input
        (step_states ((fun st => (tile st.1, tile st.2)) <$> inits.1,
                      tile inits.2))
        enc_output (Some enc_padding_mask);
  new_op (DynamicDecode decoder inits.1 inits.2 max_step_num
                        enc_output enc_padding_mask).
End Layers.

Section Attention.
Context `{Paddle}.

(** Run-time tensors of rank 1, 2 and 3 as nested lists. *)
Definition tensor1 : Type := list F.
Definition tensor2 : Type := list tensor1.
Definition tensor3 : Type := list tensor2.

Definition dot (u v : tensor1) : F :=
  foldr fadd f0 (zip_with fmul u v).

(** [v @ M] for a matrix given by its rows: one dot product per column;
    [n] is the number of columns. *)
Definition vecmat (n : nat) (v : tensor1) (M : tensor2) : tensor1 :=
  (fun j => dot v ((fun r => nth j r f0) <$> M)) <$> seq 0 n.

(** The learned parameters of a [fc] layer: a weight with one row per
    input feature and one column per unit, and a bias. *)
Record fc_params : Type := {
  fc_weight : tensor2;
  fc_bias : tensor1
}.

(** A layer of [size] units applied to one vector. *)
Definition linear (size : nat) (p : fc_params) (x : tensor1) : tensor1 :=
  zip_with fadd (vecmat size x (fc_weight p)) (fc_bias p).

(** [paddle.static.nn.fc(x, size, num_flatten_dims=2)] on a rank-3
    input: the layer is applied to every innermost vector. *)
Definition fc_flatten2 (size : Z) (p : fc_params) (x : tensor3) : tensor3 :=
  fmap (M:=list) (fmap (M:=list) (linear (Z.to_nat size) p)) x.

(** [paddle.unsqueeze(x, [1])] on a rank-2 tensor. *)
Definition unsqueeze1 (x : tensor2) : tensor3 := (fun r => [r]) <$> x.

(** Broadcasting of one dimension: equal extents are paired, an extent
    of one is repeated, anything else is a shape error. *)
Definition broadcast {A B C : Type} (f : A -> B -> option C)
    (xs : list A) (ys : list B) : option (list C) :=
  if decide (length xs = length ys) then
    mapM (fun p => f p.1 p.2) (zip xs ys)
  else
    match xs, ys with
    | [x], _ => mapM (f x) ys
    | _, [y] => mapM (fun x => f x y) xs
    | _, _ => None
    end.

(** [paddle.matmul(x, y, transpose_y=True)] on rank-3 tensors: the
    batch dimension is broadcast, every row of [x] is multiplied with
    every row of [y], and the rows must be of one length. *)
Definition matmul_transpose_y (x y : tensor3) : option tensor3 :=
  broadcast
    (fun X Y =>
       if forallb (fun xi =>
                     forallb (fun yj => bool_decide (length xi = length yj)) Y)
                  X
       then Some ((fun xi => dot xi <$> Y) <$> X)
       else None)
    x y.

(** [paddle.matmul(x, y)] on rank-3 tensors: the rows of [x] must be as
    long as [y] has rows. *)
Definition matmul (x y : tensor3) : option tensor3 :=
  broadcast
    (fun X Y =>
       if forallb (fun xi => bool_decide (length xi = length Y)) X
       then Some ((fun xi => vecmat (length (hd [] Y)) xi Y) <$> X)
       else None)
    x y.

(** [paddle.transpose(x, [1, 0, 2])]: the two leading dimensions are
    exchanged. *)
Definition transpose102 (x : tensor3) : tensor3 :=
  (fun j => (fun X => nth j X []) <$> x) <$> seq 0 (length (hd [] x)).

Definition add_vec : tensor1 -> tensor1 -> option tensor1 :=
  broadcast (fun a b => Some (fadd a b)).
Definition add_mat : tensor2 -> tensor2 -> option tensor2 :=
  broadcast add_vec.

(** [x + y] for [x] of rank 3 and [y] of rank 2: [y] is given a leading
    dimension of extent one. *)
Definition add_ten3_mat (x : tensor3) (y : tensor2) : option tensor3 :=
  broadcast add_mat x [y].

(** [mask * c] for an integer constant. *)
Definition scale (m : tensor2) (c : Z) : tensor2 :=
  fmap (M:=list) (fmap (M:=list) (fun a => fmul a (f_of_int c))) m.

(** [nn.functional.softmax(x)]: over the last axis. *)
Definition softmax (x : tensor3) : tensor3 :=
  fmap (M:=list) (fmap (M:=list) softmax_row) x.

(** Truth value of the [mask] argument in [if mask:]. *)
Definition truthy (mask : option tensor2) : bool :=
  match mask with
  | None => false
  | Some m => tensor_bool m
  end.

(** [AttentionDecoderCell.attention]; [dec_memory_w] are the parameters
    of the layer named so.  [None] is a shape error of the framework. *)
Definition attention (self : AttentionDecoderCell) (dec_memory_w : fc_params)
    (query : tensor2) (enc_output : tensor3) (mask : option tensor2)
    : option tensor3 :=
  let query := unsqueeze1 query in
  let memory := fc_flatten2 (cell_hidden_size self) dec_memory_w enc_output in
  attn ← matmul_transpose_y query memory;
  attn ← (if truthy mask then
            let attn := transpose102 attn in
            attn ← add_ten3_mat attn (scale (default [] mask) 1000000000);
            Some (transpose102 attn)
          else Some attn);
  let weight := softmax attn in
  weight_memory ← matmul weight memory;
  Some weight_memory.

(** The scores of every batch element against its memory. *)
Definition scores (query : tensor2) (memory : tensor3) : tensor2 :=
  zip_with (fun q M => dot q <$> M) query memory.

(** The attention of one batch element in the words of the
    description: scores of the query against every memory row, the mask
    row added when there is one, softmax, weighted sum of the memory. *)
Definition attention_row (memory : tensor2) (q : tensor1)
    (mask_row : option tensor1) : tensor1 :=
  let scores := dot q <$> memory in
  let scores :=
    match mask_row with
    | None => scores
    | Some m =>
        zip_with fadd scores ((fun a => fmul a (f_of_int 1000000000)) <$> m)
    end in
  let weights := softmax_row scores in
  vecmat (length (hd [] memory)) weights memory.

Definition attention_spec (self : AttentionDecoderCell)
    (dec_memory_w : fc_params) (query : tensor2) (enc_output : tensor3)
    (mask : option tensor2) : tensor3 :=
  let memory := fc_flatten2 (cell_hidden_size self) dec_memory_w enc_output in
  match mask with
  | None =>
      zip_with (fun q M => [attention_row M q None]) query memory
  | Some m =>
      zip_with (fun qm M => [attention_row M qm.1 (Some qm.2)])
               (zip query m) memory
  end.
End Attention.

(** ** [TextGenerationTask] *)

Record TextGenerationTask : Type := {
  base : BaseTask;
  num_layers : Z;
  hidden_size : Z;
  dropout : Q;
  token_feature : Var;
  feature : Var;
  max_seq_len : Z;
  num_classes : Z;
  beam_size : Z;
  beam_max_step_num : Z;
  start_token : string;
  end_token : string
}.

(** The arguments of the constructor; an optional argument that is
    omitted is [None]. *)
Record init_args `{Hub} : Type := {
  arg_feature : Var;
  arg_token_feature : Var;
  arg_max_seq_len : Z;
  arg_num_classes : Z;
  arg_dataset : option Dataset;
  arg_num_layers : option Z;
  arg_hidden_size : option Z;
  arg_dropout : option Q;
  arg_beam_size : option Z;
  arg_beam_max_step_num : option Z;
  arg_start_token : option string;
  arg_end_token : option string;
  arg_startup_program : option nat;
  arg_config : option RunConfig;
  arg_metrics_choices : option metrics_arg
}.

(** The default the class docstring documents for [hidden_size]. *)
Definition docstring_default_hidden_size : Z := 128.

(** The rank of the output of [nn.RNN(..., time_major=False)]:
    batch, time, hidden. *)
Definition rnn_output_rank : Z := 3.

Section Task.
Context `{Hub}.
Context `{StaticGraph}.

(** Lines 124-125: the string ['default'] stands for [['bleu']]. *)
Definition resolve_metrics_choices (m : metrics_arg) : metrics_arg :=
  match m with
  | MStr "default" => MList ["bleu"]
  | _ => m
  end.

(** [TextGenerationTask.__init__] *)
Definition TextGenerationTask__init__ (a : init_args) : TextGenerationTask :=
  let metrics_choices :=
    resolve_metrics_choices (default (MStr "default") (arg_metrics_choices a)) in
  let main_program := var_program (arg_feature a) in
  {| base := BaseTask__init__ (arg_dataset a) main_program
               (arg_startup_program a) (arg_config a) metrics_choices;
     num_layers := default 1 (arg_num_layers a);
     hidden_size := default 512 (arg_hidden_size a);
     dropout := default 0%Q (arg_dropout a);
     token_feature := arg_token_feature a;
     feature := arg_feature a;
     max_seq_len := arg_max_seq_len a;
     num_classes := arg_num_classes a;
     beam_size := default 10 (arg_beam_size a);
     beam_max_step_num := default 30 (arg_beam_max_step_num a);
     start_token := default "<s>" (arg_start_token a);
     end_token := default "</s>" (arg_end_token a) |}.

(** [len(self._label_list)] of line 170.  The base class, which is not
    among the sources, takes the label list from the dataset and leaves
    it at [None] for a task without one. *)
Definition len_label_list (self : TextGenerationTask) : res Z :=
  match dataset (base self) with
  | None => Raise (TypeError "object of type 'NoneType' has no len()")
  | Some _ => Ok (Z.of_nat (length (_label_list (base self))))
  end.

(** [TextGenerationTask._build_net] *)
Definition _build_net (self : TextGenerationTask)
    : res (net_outputs * net_attrs) :=
  seq_len ← new_op (Data "seq_len" [1] "int64");
  seq_len_used ← new_op (Squeeze seq_len);
  src_mask ← new_op (SequenceMask seq_len_used (max_seq_len self) "float32");
  enc_padding_mask ← new_op (SubScalar src_mask 1%Q);
  input_size ← py_getitem (var_shape (feature self)) (-1);
  dec_cell ←
    AttentionDecoderCell__init__ (num_layers self) input_size
      (hidden_size self) (dropout self) None;
  dec_init_hidden ← new_op
    (Fc (Input (feature self)) (hidden_size self) 1
        (Some {| pa_name := "dec_init_hidden_w";
                 pa_initializer := Some (TruncatedNormal (2 # 100)%Q) |})
        (Some {| pa_name := "dec_init_hidden_b";
                 pa_initializer := Some (Constant 0%Q) |}));
  zeros ← new_op (InitialStates (Input (feature self)) [hidden_size self]);
  let lstm_states :=
    replicate (Z.to_nat (num_layers self)) (dec_init_hidden, zeros) in
  input_feed ←
    new_op (InitialStates (Input (feature self)) [hidden_size self]);
  tar_vocab_size ← len_label_list self;
  let tar_embeder :=
    {| emb_size := (tar_vocab_size, hidden_size self);
       emb_dtype := "float32";
       emb_is_sparse := false;
       emb_param_attr :=
         {| pa_name := "target_embedding";
            pa_initializer := Some (Uniform (- (1 # 10))%Q (1 # 10)%Q) |} |} in
  start_token_id ← py_index (_label_list (base self)) (start_token self);
  end_token_id ← py_index (_label_list (base self)) (end_token self);
  if negb (is_predict_phase (base self)) then
    dec_input ← new_op (Data "dec_input" [max_seq_len self] "int64");
    tar_emb ← new_op (Embedding dec_input tar_embeder);
    dec_output ←
      RNN__call__ dec_cell tar_emb (lstm_states, input_feed)
                  (Input (token_feature self)) enc_padding_mask;
    logits ← new_op
      (Fc dec_output tar_vocab_size (rnn_output_rank - 1)
          (Some {| pa_name := "output_w";
                   pa_initializer :=
                     Some (Uniform (- (1 # 10))%Q (1 # 10)%Q) |})
          None);
    ids ← new_op (Argmax logits 2);
    ret_infers ← new_op (Reshape ids [-1; 1]);
    probs ← new_op (Softmax logits);
    Ok (OutList [probs],
        {| seq_len := seq_len; seq_len_used := seq_len_used;
           dec_input := Some dec_input; logits := Some logits;
           ret_infers := ret_infers |})
  else
    let output_layer :=
      {| out_size := tar_vocab_size;
         out_weight_attr :=
           {| pa_name := "output_w"; pa_initializer := None |} |} in
    let beam_search_decoder :=
      {| bsd_cell := dec_cell;
         bsd_start_token := start_token_id;
         bsd_end_token := end_token_id;
         bsd_beam_size := beam_size self;
         bsd_embedding_fn := tar_embeder;
         bsd_output_fn := output_layer |} in
    enc_output ← new_op
      (TileBeamMergeWithBatch (Input (token_feature self)) (beam_size self));
    enc_padding_mask ←
      new_op (TileBeamMergeWithBatch enc_padding_mask (beam_size self));
    ret_infers ←
      dynamic_decode beam_search_decoder (lstm_states, input_feed)
                     (beam_max_step_num self) enc_output enc_padding_mask;
    Ok (OutVar ret_infers,
        {| seq_len := seq_len; seq_len_used := seq_len_used;
           dec_input := None; logits := None;
           ret_infers := ret_infers |}).

(** *** Prediction *)

(** The results fetched for one batch in the predict phase, in the
    order of [fetch_list]: the decoded ids, of shape batch x time x
    beam, and the sequence lengths. *)
Record predict_state : Type := {
  predict_infers : ndarray3;       (* [run_results[0]] *)
  predict_seq_len : list Z         (* [run_results[1].reshape([-1])] *)
}.

(** [TextGenerationTask._postprocessing] *)
Definition _postprocessing (self : TextGenerationTask)
    (run_states : list predict_state) : res (list (list (list string))) :=
  (fun batches => concat batches) <$>
  for_each (fun batch_states =>
    let batch_infers := astype3_int32 (predict_infers batch_states) in
    let seq_lens := astype_int32 <$> predict_seq_len batch_states in
    for_each (fun '(i, sample_infers) =>
      for_each (fun beam_infer =>
        n ← py_getitem seq_lens i;
        for_each (py_getitem (_label_list (base self)))
                 (py_slice_to beam_infer (n - 2)))
        (rows (transpose sample_infers)))
      (enumerate (subarrays batch_infers)))
    run_states.

(** *** Evaluation *)

(** The results fetched for one batch in the train and test phases:
    the three metric variables of [_add_metrics], then the loss. *)
Record eval_state : Type := {
  eval_labels : list Z;            (* [run_results[0]], shape [-1, 1] *)
  eval_infers : list Z;            (* [run_results[1]], shape [-1, 1] *)
  eval_lens : list Z;              (* [run_results[2]], int64 *)
  eval_loss : list F;              (* [run_results[-1]] *)
  run_examples : Z;
  run_step : Z;
  run_time_begin : F
}.

(** [self.dataset.label_list[int(id)]] *)
Definition dataset_label (self : TextGenerationTask) (id : Z) : res string :=
  match dataset (base self) with
  | None =>
      Raise (AttributeError "'NoneType' object has no attribute 'label_list'")
  | Some d => py_getitem (label_list d) id
  end.

(** The accumulators of the loop over the run states. *)
Record metric_acc : Type := {
  loss_sum : F;
  acc_step : Z;
  acc_examples : Z;
  acc_labels : list (list string);
  acc_results : list (list string)
}.

(** The upper bound of the slice of sample [i]; the length is a numpy
    [int64], so the arithmetic wraps. *)
Definition sample_stop (i max_len len_i : Z) : Z :=
  wrap64 (wrap64 (i * max_len + len_i) - 2).

(** The body of [for run_state in run_states]. *)
Definition calculate_step (self : TextGenerationTask)
    (acc : metric_acc) (run_state : eval_state) : res metric_acc :=
  let loss_sum := fadd (loss_sum acc) (np_mean (eval_loss run_state)) in
  let np_labels := eval_labels run_state in
  let np_infers := eval_infers run_state in
  let np_lens := eval_lens run_state in
  let batch_size := Z.of_nat (length np_lens) in
  max_len ← py_floordiv (Z.of_nat (length np_labels)) batch_size;
  pairs ← for_each (fun i =>
             len_i ← py_getitem np_lens i;
             let stop := sample_stop i max_len len_i in
             label ← for_each (dataset_label self)
                              (py_slice np_labels (i * max_len) stop);
             result ← for_each (dataset_label self)
                               (py_slice np_infers (i * max_len) stop);
             Ok (label, result))
           (py_range batch_size);
  Ok {| loss_sum := loss_sum;
        acc_step := acc_step acc + run_step run_state;
        acc_examples := acc_examples acc + run_examples run_state;
        acc_labels := (acc_labels acc ++ pairs.*1)%list;
        acc_results := (acc_results acc ++ pairs.*2)%list |}.

(** The loop [for run_state in run_states], from the initial values
    of the accumulators. *)
Definition calculate_loop (self : TextGenerationTask)
    (run_states : list eval_state) : res metric_acc :=
  for_fold (calculate_step self)
    {| loss_sum := f_of_int 0; acc_step := 0; acc_examples := 0;
       acc_labels := []; acc_results := [] |}
    run_states.

(** The loop over [self.metrics_choices]. *)
Fixpoint calculate_scores (labels results : list (list string))
    (scores : list (string * F)) (metrics : list string)
    : res (list (string * F)) :=
  match metrics with
  | [] => Ok scores
  | metric :: rest =>
      if decide (metric = "bleu") then
        bleu ← compute_bleu labels results 1;
        calculate_scores labels results (dict_set scores "bleu" bleu.1) rest
      else Raise (ValueError ("Not Support Metric: '" +:+ metric +:+ "'"))
  end.

(** [TextGenerationTask._calculate_metrics]; [now] is the reading of
    [time.time()]. *)
Definition _calculate_metrics (self : TextGenerationTask) (now : F)
    (run_states : list eval_state) : res (list (string * F) * F * F) :=
  acc ← calculate_loop self run_states;
  first ← py_getitem run_states 0;
  let run_time_used := fsub now (run_time_begin first) in
  run_speed ← (if f_is_zero run_time_used then Raise ZeroDivisionError
               else Ok (fdiv (f_of_int (acc_step acc)) run_time_used));
  let avg_loss := fdiv (loss_sum acc) (f_of_int (acc_examples acc)) in
  scores ← calculate_scores (acc_labels acc) (acc_results acc) []
             (metrics_choices (base self));
  Ok (scores, avg_loss, run_speed).

(** *** The samples of a run, in the order of the results *)

(** Every sample of a prediction run: the sequence lengths of its
    batch, its position in the batch and its matrix of decoded ids
    (time x beam). *)
Definition predict_samples (run_states : list predict_state)
    : list (list Z * Z * ndarray2) :=
  concat
    ((fun st =>
        (fun '(i, sample) => (astype_int32 <$> predict_seq_len st, i, sample))
          <$> enumerate (subarrays (astype3_int32 (predict_infers st))))
       <$> run_states).

(** [tokens] are the labels of the first [n - 2] ids of a beam, [n]
    being the sequence length recorded for sample [i]. *)
Definition truncated_beam (self : TextGenerationTask) (seq_lens : list Z)
    (i : Z) (beam_infer : list Z) (tokens : list string) : Prop :=
  forall n, py_getitem seq_lens i = Ok n -> 2 <= n ->
    Forall2 (fun id tok => py_getitem (_label_list (base self)) id = Ok tok)
            (take (Z.to_nat (n - 2)) beam_infer) tokens
    /\ Z.of_nat (length tokens) <= n - 2
    /\ (n = 2 -> tokens = []).

(** Every sample of an evaluation run: its batch and its position. *)
Definition eval_samples (run_states : list eval_state)
    : list (eval_state * Z) :=
  concat
    ((fun st => (fun i => (st, i)) <$> py_range (Z.of_nat (length (eval_lens st))))
       <$> run_states).

(** [tokens] are the labels of the first [n - 2] of the ids that start
    at the offset of sample [i], [n] being its sequence length (small
    enough for the [int64] arithmetic not to wrap). *)
Definition truncated_sample (self : TextGenerationTask) (st : eval_state)
    (i : Z) (ids : list Z) (tokens : list string) : Prop :=
  let max_len :=
    Z.of_nat (length (eval_labels st)) / Z.of_nat (length (eval_lens st)) in
  forall n, 0 <= i -> py_getitem (eval_lens st) i = Ok n -> 2 <= n ->
    i * max_len + n < 2 ^ 63 ->
    Forall2 (fun id tok => dataset_label self id = Ok tok)
            (take (Z.to_nat (n - 2)) (drop (Z.to_nat (i * max_len)) ids))
            tokens
    /\ Z.of_nat (length tokens) <= n - 2.
End Task.

(** ** The hub module [human_pose_estimation_resnet50_mpii]

    Only the unit tests of the module are part of the sources; the
    module itself is described by the specification. *)

(** An image held in memory (a numpy array). *)
Record image : Type := {
  image_shape : list Z;
  image_data : list Z
}.

(** A file on disk: an image that decodes, or other bytes. *)
Inductive file : Type :=
| ImageFile (im : image)
| Blob (bytes : list Z).

(** The Python values that reach the module interface or are returned
    by it. *)
Inductive pyval : Type :=
| VNone
| VStr (s : string)
| VArray (a : image)
| VDict (d : list (string * list Z)).

(** The pretrained network and its exported artifacts. *)
Class PoseModule : Type := {
  predict_keypoints : image -> list (string * list Z);
  pdmodel_bytes : list Z;
  pdiparams_bytes : list Z
}.

Section Keypoint.
Context `{PoseModule}.

(** A path at which the file system holds an image. *)
Definition valid_image_path (fs : gmap string file) (path : string) : Prop :=
  exists im, fs !! path = Some (ImageFile im).

(** An object that is an image array. *)
Definition is_image_array (o : pyval) : Prop := exists a, o = VArray a.

(** A result whose ['data'] entry is a dictionary. *)
Definition data_is_dict (r : gmap string pyval) : Prop :=
  exists kps, r !! "data" = Some (VDict kps).

(** Modelled from the spec: the reader of the [paths] argument of
    [keypoint_detection] (the module's [module.py] is not among the
    sources).  A path at which there is no image is a file-not-found
    style assertion failure. *)
Definition read_path (fs : gmap string file) (path : string) : res image :=
  match fs !! path with
  | Some (ImageFile im) => Ok im
  | _ => Raise (AssertionError ("The " +:+ path +:+ " isn't a valid file path."))
  end.

(** Modelled from the spec: the reader of the [images] argument of
    [keypoint_detection] ([module.py] is not among the sources): an
    attribute error when an element is not an image array. *)
Definition read_image (o : pyval) : res image :=
  match o with
  | VArray a => Ok a
  | _ => Raise (AttributeError "object has no attribute 'shape'")
  end.

(** Modelled from the spec: [keypoint_detection] of the hub module
    ([module.py] is not among the sources): image paths or in-memory
    images and the optional flags go in, one result per image comes
    out, whose ['data'] entry is the dictionary of keypoints. *)
Definition keypoint_detection (fs : gmap string file)
    (images : option (list pyval)) (paths : option (list string))
    (use_gpu visualization : bool) : res (list (gmap string pyval)) :=
  from_paths ← for_each (read_path fs) (default [] paths);
  from_images ← for_each read_image (default [] images);
  Ok ((fun im => {[ "data" := VDict (predict_keypoints im) ]})
        <$> (from_paths ++ from_images)%list).

(** Modelled from the spec: [save_inference_model] of the hub module
    ([module.py] is not among the sources): the export writes two
    artifact files, named by the destination prefix and the suffixes
    [.pdmodel] and [.pdiparams]. *)
Definition save_inference_model (fs : gmap string file) (prefix : string)
    : res (gmap string file) :=
  Ok (<[ prefix +:+ ".pdiparams" := Blob pdiparams_bytes ]>
        (<[ prefix +:+ ".pdmodel" := Blob pdmodel_bytes ]> fs)).

(** *** The unit tests ([test.py]) *)

Record response : Type := {
  status_code : Z;
  content : file
}.

(** [setUpClass]: the sample image is downloaded to [tests/test.jpg]. *)
Definition setUpClass (resp : response) (fs : gmap string file)
    : res (gmap string file) :=
  if status_code resp =? 200 then Ok (<[ "tests/test.jpg" := content resp ]> fs)
  else Raise (AssertionError "Network Error.").

(** [cv2.imread(path)]: the decoded image, [None] when there is none. *)
Definition cv2_imread (fs : gmap string file) (path : string) : pyval :=
  match fs !! path with
  | Some (ImageFile im) => VArray im
  | _ => VNone
  end.

(** [os.path.exists(path)] *)
Definition os_path_exists (fs : gmap string file) (path : string) : bool :=
  bool_decide (is_Some (fs !! path)).

(** [d[k]] on a dictionary. *)
Definition dict_getitem (d : gmap string pyval) (k : string) : res pyval :=
  match d !! k with
  | Some v => Ok v
  | None => Raise (KeyError k)
  end.

(** [self.assertIsInstance(v, dict)] *)
Definition assertIsInstance_dict (v : pyval) : res unit :=
  match v with
  | VDict _ => Ok tt
  | _ => Raise (AssertionError "not an instance of dict")
  end.

(** [self.assertTrue(b)] *)
Definition assertTrue (b : bool) : res unit :=
  if b then Ok tt else Raise (AssertionError "False is not true").

(** [self.assertRaises(E, f, ...)]: passes when the call raises an
    exception of class [E]; another exception propagates. *)
Definition assertRaises {A : Type} (E : exn -> bool) (call : res A) : res unit :=
  match call with
  | Ok _ => Raise (AssertionError "exception not raised")
  | Raise e => if E e then Ok tt else Raise e
  end.

Definition is_AssertionError (e : exn) : bool :=
  match e with AssertionError _ => true | _ => false end.
Definition is_AttributeError (e : exn) : bool :=
  match e with AttributeError _ => true | _ => false end.

(** The common tail of tests 1 to 4. *)
Definition check_first_result (results : list (gmap string pyval)) : res unit :=
  r ← py_getitem results 0;
  kps ← dict_getitem r "data";
  assertIsInstance_dict kps.

Definition test_keypoint_detection1 (fs : gmap string file) : res unit :=
  results ← keypoint_detection fs None (Some ["tests/test.jpg"]) false false;
  check_first_result results.

Definition test_keypoint_detection2 (fs : gmap string file) : res unit :=
  results ← keypoint_detection fs
              (Some [cv2_imread fs "tests/test.jpg"]) None false false;
  check_first_result results.

Definition test_keypoint_detection3 (fs : gmap string file) : res unit :=
  results ← keypoint_detection fs
              (Some [cv2_imread fs "tests/test.jpg"]) None false true;
  check_first_result results.

Definition test_keypoint_detection4 (fs : gmap string file) : res unit :=
  results ← keypoint_detection fs
              (Some [cv2_imread fs "tests/test.jpg"]) None true false;
  check_first_result results.

Definition test_keypoint_detection5 (fs : gmap string file) : res unit :=
  assertRaises is_AssertionError
    (keypoint_detection fs None (Some ["no.jpg"]) false false).

Definition test_keypoint_detection6 (fs : gmap string file) : res unit :=
  assertRaises is_AttributeError
    (keypoint_detection fs (Some [VStr "test.jpg"]) None false false).

Definition test_save_inference_model (fs : gmap string file) : res unit :=
  fs ← save_inference_model fs "./inference/model";
  _ ← assertTrue (os_path_exists fs "./inference/model.pdmodel");
  assertTrue (os_path_exists fs "./inference/model.pdiparams").
End Keypoint.

(** ** [AttentionDecoderCell.forward]

    One decoding step.  The LSTM cells and the dropout of the framework
    are parameters: [lstm c x st] is the call of the cell [c] on the
    input [x] and the state [st], [None] being a shape error;
    [dropout x p] is [nn.functional.dropout(x, p, mode='upscale_in_train')]. *)

(** The result of a step: a value, a Python exception, or a shape error
    of a framework operation. *)
Inductive outcome (A : Type) : Type :=
| Value (a : A)
| PyRaise (e : exn)
| ShapeError.
Arguments Value {A} a.
Arguments PyRaise {A} e.
Arguments ShapeError {A}.

#[global] Instance outcome_ret : MRet outcome := fun A a => Value a.

#[global] Instance outcome_bind : MBind outcome := fun A B k m =>
  match m with
  | Value a => k a
  | PyRaise e => PyRaise e
  | ShapeError => ShapeError
  end.

Definition of_res {A : Type} (m : res A) : outcome A :=
  match m with
  | Ok a => Value a
  | Raise e => PyRaise e
  end.

Definition of_shape {A : Type} (m : option A) : outcome A :=
  match m with
  | Some a => Value a
  | None => ShapeError
  end.

(** A loop over [l] that threads an accumulator and may stop with an
    exception or a shape error. *)
Fixpoint outcome_fold {A S : Type} (f : S -> A -> outcome S) (s : S)
    (l : list A) : outcome S :=
  match l with
  | [] => Value s
  | a :: l' => s' ← f s a; outcome_fold f s' l'
  end.

Section Forward.
Context `{Paddle}.
Variable lstm : LSTMCell -> tensor2 -> tensor2 * tensor2 ->
                option (tensor2 * (tensor2 * tensor2)).
Variable dropout_fn : tensor2 -> Q -> tensor2.

(** [paddle.concat([x, y], 1)] on rank-2 tensors: the rows are joined;
    the batch extents must agree. *)
Definition concat1 (x y : tensor2) : option tensor2 :=
  if decide (length x = length y) then Some (zip_with app x y) else None.

(** [paddle.squeeze(x, [1])] on a rank-3 tensor: the middle dimension is
    removed when its extent is one.  Otherwise the tensor keeps its rank
    and cannot be joined with a rank-2 tensor afterwards, which is the
    shape error reported here. *)
Definition squeeze1 (x : tensor3) : option tensor2 :=
  mapM (fun X => match X with [r] => Some r | _ => None end) x.

(** [paddle.static.nn.fc(x, size)] on a rank-2 input. *)
Definition fc_flatten1 (size : Z) (p : fc_params) (x : tensor2) : tensor2 :=
  linear (Z.to_nat size) p <$> x.

(** The state of the cell: one pair per LSTM layer and the input feed. *)
Definition cell_states : Type := (list (tensor2 * tensor2) * tensor2)%type.

(** The body of [for i in range(self.num_layers)]; the accumulator is
    [step_input] and [new_lstm_states]. *)
Definition forward_layer (self : AttentionDecoderCell)
    (lstm_states : list (tensor2 * tensor2))
    (acc : tensor2 * list (tensor2 * tensor2)) (i : Z)
    : outcome (tensor2 * list (tensor2 * tensor2)) :=
  let '(step_input, new_lstm_states) := acc in
  cell ← of_res (py_getitem (cell_lstm_cells self) i);
  state ← of_res (py_getitem lstm_states i);
  '(out, new_lstm_state) ← of_shape (lstm cell step_input state);
  let step_input :=
    if Qlt_le_dec 0 (cell_dropout_prob self)
    then dropout_fn out (cell_dropout_prob self)
    else out in
  Value (step_input, (new_lstm_states ++ [new_lstm_state])%list).

(** [AttentionDecoderCell.forward]; [dec_memory_w] and [dec_out_w] are
    the parameters of the two layers named so. *)
Definition forward (self : AttentionDecoderCell)
    (dec_memory_w dec_out_w : fc_params)
    (step_input : tensor2) (states : cell_states)
    (enc_output : tensor3) (enc_padding_mask : option tensor2)
    : outcome (tensor2 * cell_states) :=
  let '(lstm_states, input_feed) := states in
  step_input ← of_shape (concat1 step_input input_feed);
  '(step_input, new_lstm_states) ←
    outcome_fold (forward_layer self lstm_states) (step_input, [])
                 (py_range (cell_num_layers self));
  dec_att ← of_shape (attention self dec_memory_w step_input enc_output
                                enc_padding_mask);
  dec_att ← of_shape (squeeze1 dec_att);
  concat_att_out ← of_shape (concat1 dec_att step_input);
  let out := fc_flatten1 (cell_hidden_size self) dec_out_w concat_att_out in
  Value (out, (new_lstm_states, out)).
End Forward.

(** ** Changing the phase of a task *)

(** The task with [is_predict_phase] set to [b]; the base class switches
    the phase of one and the same task object. *)
Definition with_predict_phase (b : bool) (self : TextGenerationTask)
    : TextGenerationTask :=
  {| base :=
       {| dataset := dataset (base self);
          metrics_choices := metrics_choices (base self);
          _label_list := _label_list (base self);
          is_train_phase := is_train_phase (base self);
          is_test_phase := is_test_phase (base self);
          is_predict_phase := b |};
     num_layers := num_layers self;
     hidden_size := hidden_size self;
     dropout := dropout self;
     token_feature := token_feature self;
     feature := feature self;
     max_seq_len := max_seq_len self;
     num_classes := num_classes self;
     beam_size := beam_size self;
     beam_max_step_num := beam_max_step_num self;
     start_token := start_token self;
     end_token := end_token self |}.


(** ** Small instances of the interfaces, to run the definitions on *)

(** Integers stand for the scalars; the softmax is replaced by the
    identity, which keeps the length of its argument. *)
#[local] Instance example_paddle : Paddle := {|
  F := Z;
  f0 := 0;
  fadd := Z.add;
  fsub := Z.sub;
  fmul := Z.mul;
  fdiv := Z.div;
  f_of_int := fun z => z;
  f_is_zero := Z.eqb 0;
  np_mean := fun l => foldr Z.add 0 l / Z.of_nat (length l);
  softmax_row := fun v => v;
  tensor_bool := fun _ => true;
  softmax_row_length := fun v => eq_refl
|}.

(** A base class that stores what it is given; the score is the number
    of references, and a corpus whose references are all empty has no
    score: the metric divides by their total length. *)
#[local] Instance example_hub : Hub := {|
  RunConfig := unit;
  BaseTask__init__ := fun ds _ _ _ m =>
    {| dataset := ds;
       metrics_choices := match m with MStr s => [s] | MList l => l end;
       _label_list := match ds with Some d => label_list d | None => [] end;
       is_train_phase := false;
       is_test_phase := false;
       is_predict_phase := true |};
  compute_bleu := fun refs _ _ =>
    if forallb (fun ref => bool_decide (ref = [])) refs
    then Raise ZeroDivisionError
    else Ok (Z.of_nat (length refs), [])
|}.

(** The shapes the example framework infers, [-1] being an extent that
    is not known before the program runs. *)
Fixpoint example_shape (t : tensor) : option (list Z) :=
  match t with
  | Input v => Some (var_shape v)
  | Data _ shape _ => Some shape
  | Squeeze x => filter (fun d => d <> 1) <$> example_shape x
  | SequenceMask x maxlen _ =>
      (fun s => (s ++ [maxlen])%list) <$> example_shape x
  | SubScalar x _ | MulScalar x _ | Softmax x | Dropout x _ _
  | StepState x => example_shape x
  | TileBeamMergeWithBatch x beam =>
      s ← example_shape x;
      match s with
      | d :: ds => Some ((if d <? 0 then d else d * beam) :: ds)
      | [] => None
      end
  | Fc x size num_flatten_dims _ _ =>
      (fun s => (take (Z.to_nat num_flatten_dims) s ++ [size])%list)
        <$> example_shape x
  | Embedding x fn => (fun s => (s ++ [(emb_size fn).2])%list) <$> example_shape x
  | InitialStates batch_ref shape =>
      s ← example_shape batch_ref;
      match s with
      | d :: _ => Some (d :: shape)
      | [] => None
      end
  | LstmH _ _ h _ => example_shape h
  | LstmC _ _ _ c => example_shape c
  | Unsqueeze x [1] =>
      (fun s => (take 1 s ++ 1 :: drop 1 s)%list) <$> example_shape x
  | SqueezeAxes x [1] =>
      s ← example_shape x;
      match s with
      | [b; 1; d] => Some [b; d]
      | _ => Some s
      end
  | Matmul x y transpose_y =>
      s ← example_shape x;
      s' ← example_shape y;
      match s, s' with
      | [b; m; _], [_; n; k] => Some [b; m; if transpose_y then n else k]
      | _, _ => None
      end
  | Transpose x [1; 0; 2] =>
      s ← example_shape x;
      match s with
      | [a; b; c] => Some [b; a; c]
      | _ => None
      end
  | StepInput x =>
      s ← example_shape x;
      match s with
      | b :: _ :: ds => Some (b :: ds)
      | _ => None
      end
  | BeamInputs decoder => Some [-1; (emb_size (bsd_embedding_fn decoder)).2]
  | _ => None
  end.

(** Two extents can be broadcast when they agree, when one of them is 1
    or when one of them is not known yet; two shapes, when their extents
    can, aligned at the last dimension. *)
Definition example_broadcast (s s' : list Z) : bool :=
  forallb (fun '(d, d') =>
             (d =? d') || (d =? 1) || (d' =? 1) || (d <? 0) || (d' <? 0))
          (zip (reverse s) (reverse s')).

(** The checks of the example framework: the two known ones, and the
    broadcast of the two arguments of an addition. *)
Definition example_op_error (t : tensor) : option exn :=
  match t with
  | Concat (x :: _) axis =>
      match static_rank x with
      | Some r =>
          if r <=? axis
          then Some (ValueError "concat: the axis is outside the rank of the first input")
          else None
      | None => None
      end
  | ElementwiseAdd x y =>
      match example_shape x, example_shape y with
      | Some s, Some s' =>
          if example_broadcast s s' then None
          else Some (ValueError "elementwise_add: the shapes cannot be broadcast")
      | _, _ => None
      end
  | _ => None
  end.

Definition example_LSTMCell_error (input_size hidden_size : Z) : option exn :=
  if hidden_size <=? 0
  then Some (ValueError "hidden_size of LSTMCell must be greater than 0")
  else None.

#[local] Instance example_graph : StaticGraph := {|
  op_error := example_op_error;
  var_bool := fun _ => Ok true;
  LSTMCell_error := example_LSTMCell_error;
  LSTMCell_hidden_size_positive := ltac:(
    intros input_size hidden_size Hle; unfold example_LSTMCell_error;
    destruct (Z.leb_spec hidden_size 0); [by eexists|lia]);
  concat_axis_within_rank := ltac:(
    intros x xs axis r Hrank Hle; simpl; rewrite Hrank;
    destruct (Z.leb_spec r axis); [by eexists|lia])
|}.

#[local] Instance example_pose_module : PoseModule := {|
  predict_keypoints := fun _ => [("head_top", [10; 20]); ("pelvis", [30; 40])];
  pdmodel_bytes := [1; 2];
  pdiparams_bytes := [3]
|}.

Definition example_vocab : list string := ["<s>"; "</s>"; "a"; "b"].

Definition example_feature : Var :=
  {| var_name := "feature"; var_shape := [-1; 8]; var_program := 0%nat |}.

Definition example_token_feature : Var :=
  {| var_name := "token_feature"; var_shape := [-1; 4; 8]; var_program := 0%nat |}.

(** The constructor called with the required arguments, a dataset and a
    beam of two. *)
Definition example_args : init_args :=
  {| arg_feature := example_feature;
     arg_token_feature := example_token_feature;
     arg_max_seq_len := 4;
     arg_num_classes := 4;
     arg_dataset := Some {| label_list := example_vocab |};
     arg_num_layers := None;
     arg_hidden_size := None;
     arg_dropout := None;
     arg_beam_size := Some 2;
     arg_beam_max_step_num := None;
     arg_start_token := None;
     arg_end_token := None;
     arg_startup_program := None;
     arg_config := None;
     arg_metrics_choices := None |}.

Definition example_task : TextGenerationTask :=
  TextGenerationTask__init__ example_args.

(** The same task with a single beam, and in the training phase. *)
Definition example_task_one_beam : TextGenerationTask :=
  TextGenerationTask__init__
    {| arg_feature := example_feature;
       arg_token_feature := example_token_feature;
       arg_max_seq_len := 4;
       arg_num_classes := 4;
       arg_dataset := Some {| label_list := example_vocab |};
       arg_num_layers := None;
       arg_hidden_size := None;
       arg_dropout := None;
       arg_beam_size := Some 1;
       arg_beam_max_step_num := None;
       arg_start_token := None;
       arg_end_token := None;
       arg_startup_program := None;
       arg_config := None;
       arg_metrics_choices := None |}.

Definition example_task_train : TextGenerationTask :=
  with_predict_phase false example_task_one_beam.

(** One batch of two samples, three decoding steps, two beams. *)
Definition example_predict_state : predict_state :=
  {| predict_infers :=
       {| dim0 := 2; dim1 := 3; dim2 := 2;
          data3 := [2; 3; 3; 2; 1; 1;   3; 3; 2; 2; 1; 1] |};
     predict_seq_len := [4; 3] |}.

(** One evaluated batch of two samples of maximal length three. *)
Definition example_eval_state : eval_state :=
  {| eval_labels := [2; 3; 1; 3; 1; 1];
     eval_infers := [2; 2; 1; 3; 1; 1];
     eval_lens := [4; 3];
     eval_loss := [6];
     run_examples := 2;
     run_step := 1;
     run_time_begin := 100 |}.

(** A task whose metrics name something besides BLEU. *)
Definition example_task_rouge : TextGenerationTask :=
  TextGenerationTask__init__
    {| arg_feature := example_feature;
       arg_token_feature := example_token_feature;
       arg_max_seq_len := 4;
       arg_num_classes := 4;
       arg_dataset := Some {| label_list := example_vocab |};
       arg_num_layers := None;
       arg_hidden_size := Some 64;
       arg_dropout := None;
       arg_beam_size := None;
       arg_beam_max_step_num := None;
       arg_start_token := None;
       arg_end_token := None;
       arg_startup_program := None;
       arg_config := None;
       arg_metrics_choices := Some (MList ["bleu"; "rouge"]) |}.

(** A layer of two units, two queries, two memories of three rows and
    the mask of their padding. *)
Definition example_cell : AttentionDecoderCell :=
  {| cell_num_layers := 1;
     cell_hidden_size := 2;
     cell_dropout_prob := 0%Q;
     cell_lstm_cells := [{| lstm_input_size := 10; lstm_hidden_size := 2 |}];
     cell_init_scale := (1 # 10)%Q |}.

Definition example_dec_memory_w : fc_params :=
  {| fc_weight := [[1; 0]; [0; 1]]; fc_bias := [0; 0] |}.

Definition example_query : tensor2 := [[1; 2]; [3; 4]].

Definition example_enc_output : tensor3 :=
  [[[1; 1]; [2; 2]; [3; 3]]; [[1; 0]; [0; 1]; [1; 1]]].

Definition example_mask : tensor2 := [[0; 0; -1]; [0; -1; -1]].

Definition example_image : image :=
  {| image_shape := [2; 2; 3]; image_data := [0; 1; 2; 3; 4; 5; 6; 7; 8; 9; 10; 11] |}.

(** The file system after [setUpClass]. *)
Definition example_fs : gmap string file :=
  {[ "tests/test.jpg" := ImageFile example_image ]}.

(** An LSTM step that returns its input as output and as hidden state,
    and a dropout that zeroes its argument. *)
Definition example_lstm (c : LSTMCell) (x : tensor2) (st : tensor2 * tensor2)
    : option (tensor2 * (tensor2 * tensor2)) :=
  Some (x, (x, st.2)).

Definition example_dropout (x : tensor2) (p : Q) : tensor2 :=
  fmap (M:=list) (fmap (M:=list) (fun _ : F => 0)) x.

(** A second dropout, the identity. *)
Definition example_dropout_id (x : tensor2) (p : Q) : tensor2 := x.

Definition example_dec_out_w : fc_params :=
  {| fc_weight := [[1; 0]; [0; 1]; [1; 1]; [0; 0]]; fc_bias := [0; 0] |}.

(** A step input of one feature for two batch elements, the state of one
    layer and an input feed of one feature. *)
Definition example_step_input : tensor2 := [[1]; [3]].

Definition example_states : cell_states :=
  ([([[0]; [0]], [[0]; [0]])], [[2]; [4]]).

(** A prediction batch fetched without its sequence lengths. *)
Definition example_predict_state_no_lens : predict_state :=
  {| predict_infers := predict_infers example_predict_state;
     predict_seq_len := [] |}.

(** A prediction batch whose samples have the lengths 1 and 0. *)
Definition example_predict_state_short : predict_state :=
  {| predict_infers := predict_infers example_predict_state;
     predict_seq_len := [1; 0] |}.

(** An evaluated batch without samples. *)
Definition example_eval_state_empty : eval_state :=
  {| eval_labels := [];
     eval_infers := [];
     eval_lens := [];
     eval_loss := [];
     run_examples := 0;
     run_step := 1;
     run_time_begin := 100 |}.

(** An evaluated batch all of whose sequences have the length 2. *)
Definition example_eval_state_len2 : eval_state :=
  {| eval_labels := [2; 3; 1; 3; 1; 1];
     eval_infers := [2; 2; 1; 3; 1; 1];
     eval_lens := [2; 2];
     eval_loss := [6];
     run_examples := 2;
     run_step := 1;
     run_time_begin := 100 |}.

(** A task without a dataset. *)
Definition example_task_no_dataset : TextGenerationTask :=
  TextGenerationTask__init__
    {| arg_feature := example_feature;
       arg_token_feature := example_token_feature;
       arg_max_seq_len := 4;
       arg_num_classes := 4;
       arg_dataset := None;
       arg_num_layers := Some 2;
       arg_hidden_size := None;
       arg_dropout := None;
       arg_beam_size := None;
       arg_beam_max_step_num := None;
       arg_start_token := None;
       arg_end_token := None;
       arg_startup_program := None;
       arg_config := None;
       arg_metrics_choices := None |}.

(** The answer of the image server. *)
Definition example_response : response :=
  {| status_code := 200; content := ImageFile example_image |}.

(** * Properties *)

(** ** The error monad and the Python sequences *)

Lemma bind_Ok {A B : Type} (m : res A) (k : A -> res B) (b : B) :
  m ≫= k = Ok b <-> exists a, m = Ok a /\ k a = Ok b.
Proof.
  destruct m as [a|e]; simpl.
  - split; [eauto | intros (a' & [= <-] & ?); done].
  - split; [done | intros (a' & [=] & _)].
Qed.

Lemma fmap_Ok {A B : Type} (f : A -> B) (m : res A) (b : B) :
  f <$> m = Ok b <-> exists a, m = Ok a /\ b = f a.
Proof.
  destruct m as [a|e]; simpl.
  - split; [intros [= <-]; eauto | intros (a' & [= <-] & ->); done].
  - split; [done | intros (a' & [=] & _)].
Qed.

Lemma for_each_Forall2 {A B : Type} (f : A -> res B) (l : list A) (bs : list B) :
  for_each f l = Ok bs <-> Forall2 (fun a b => f a = Ok b) l bs.
Proof.
  revert bs. induction l as [|a l IH]; intros bs; simpl.
  - split; [intros [= <-]; constructor | by inversion 1].
  - rewrite bind_Ok. split.
    + intros (b & Hb & Hrest). apply bind_Ok in Hrest as (bs' & Hbs & [= <-]).
      constructor; [done | by apply IH].
    + inversion 1 as [|? b ? bs' Hb Hbs]; subst.
      exists b. split; [done|]. apply bind_Ok. exists bs'.
      split; [by apply IH | done].
Qed.

Lemma for_each_length {A B : Type} (f : A -> res B) (l : list A) (bs : list B) :
  for_each f l = Ok bs -> length bs = length l.
Proof. intros Hf%for_each_Forall2. symmetry. by eapply Forall2_length. Qed.

Lemma for_each_total {A B : Type} (f : A -> res B) (l : list A) :
  Forall (fun a => exists b, f a = Ok b) l -> exists bs, for_each f l = Ok bs.
Proof.
  induction 1 as [|a l [b Hb] _ [bs Hbs]]; simpl; [by eexists|].
  exists (b :: bs). by rewrite Hb, Hbs.
Qed.

Lemma py_getitem_Ok {A : Type} (l : list A) (i : Z) (a : A) :
  py_getitem l i = Ok a ->
  exists j : nat, l !! j = Some a /\
    Z.of_nat j = if i <? 0 then i + Z.of_nat (length l) else i.
Proof.
  unfold py_getitem. intros Hget.
  destruct (_ || _) eqn:Hrange; [done|].
  apply orb_false_iff in Hrange as [Hlo%Z.ltb_ge Hhi%Z.leb_gt].
  destruct (l !! _) as [a'|] eqn:Hl; [|done].
  injection Hget as <-. eexists. split; [done|]. lia.
Qed.

Lemma py_getitem_nat {A : Type} (l : list A) (j : nat) :
  py_getitem l (Z.of_nat j) =
    match l !! j with Some a => Ok a | None => Raise IndexError end.
Proof.
  unfold py_getitem.
  assert ((Z.of_nat j <? 0) = false) as Hneg by (apply Z.ltb_ge; lia).
  cbv zeta. rewrite !Hneg. simpl.
  rewrite Nat2Z.id. destruct (l !! j) eqn:Hl.
  - apply lookup_lt_Some in Hl.
    assert ((Z.of_nat (length l) <=? Z.of_nat j) = false) as ->
      by (apply Z.leb_gt; lia).
    done.
  - by destruct (_ <=? _).
Qed.

Lemma py_slice_nonneg {A : Type} (l : list A) (a b : Z) :
  0 <= a <= b ->
  py_slice l a b = take (Z.to_nat (b - a)) (drop (Z.to_nat a) l).
Proof.
  intros Hab. unfold py_slice, slice_bound.
  assert ((a <? 0) = false) as -> by (apply Z.ltb_ge; lia).
  assert ((b <? 0) = false) as -> by (apply Z.ltb_ge; lia).
  destruct (decide (a <= Z.of_nat (length l))) as [Ha|Ha].
  - rewrite (Z.min_l a) by done.
    destruct (decide (b <= Z.of_nat (length l))) as [Hb|Hb].
    + by rewrite (Z.min_l b).
    + rewrite (Z.min_r b) by lia.
      rewrite !take_ge; [done| |]; rewrite length_drop; lia.
  - rewrite !drop_ge by lia. by rewrite !take_nil.
Qed.

Lemma py_slice_to_nonneg {A : Type} (l : list A) (k : Z) :
  0 <= k -> py_slice_to l k = take (Z.to_nat k) l.
Proof.
  intros Hk. unfold py_slice_to. rewrite py_slice_nonneg by lia.
  by rewrite Z.sub_0_r.
Qed.

Lemma wrap_id (bits z : Z) :
  0 < bits -> - 2 ^ (bits - 1) <= z < 2 ^ (bits - 1) -> wrap bits z = z.
Proof.
  intros Hbits Hz. unfold wrap.
  assert (2 ^ bits = 2 * 2 ^ (bits - 1)) as Hpow.
  { rewrite <- Z.pow_succ_r by lia. f_equal. lia. }
  rewrite Z.mod_small by lia. lia.
Qed.

(** ** Integer arrays *)

Lemma enumerate_lookup {A : Type} (l : list A) (j : nat) (i : Z) (x : A) :
  enumerate l !! j = Some (i, x) -> i = Z.of_nat j /\ l !! j = Some x.
Proof.
  unfold enumerate. intros [Hi Hx]%lookup_zip_Some. split; [|done].
  rewrite list_lookup_fmap in Hi.
  rewrite lookup_seq_lt in Hi by (by eapply lookup_lt_Some).
  by injection Hi as <-.
Qed.

Lemma length_subarrays (a : ndarray3) : length (subarrays a) = dim0 a.
Proof. unfold subarrays. by rewrite length_fmap, length_seq. Qed.

Lemma length_rows (m : ndarray2) : length (rows m) = nrows m.
Proof. unfold rows. by rewrite length_fmap, length_seq. Qed.

(** ** The constructor and the metrics of [TextGenerationTask] *)

Section TaskProperties.
Context `{Hub}.

Lemma dict_set_twice {V : Type} (d : list (string * V)) (k : string) (v : V) :
  dict_set (dict_set d k v) k v = dict_set d k v.
Proof.
  induction d as [|[k' v'] d IH]; simpl.
  - by rewrite decide_True.
  - destruct (decide (k' = k)) as [->|Hne]; simpl.
    + by rewrite decide_True.
    + rewrite decide_False by done. by rewrite IH.
Qed.

Lemma calculate_scores_all_bleu labels results scores metrics :
  Forall (fun m => m = "bleu") metrics ->
  calculate_scores labels results scores metrics =
    match metrics, compute_bleu labels results 1 with
    | [], _ => Ok scores
    | _ :: _, Ok bleu => Ok (dict_set scores "bleu" bleu.1)
    | _ :: _, Raise e => Raise e
    end.
Proof.
  intros Hall. revert scores.
  induction Hall as [|m ms -> _ IH]; intros scores; simpl; [done|].
  destruct (compute_bleu labels results 1) as [bleu|e] eqn:Hbleu; simpl;
    [|done].
  rewrite IH. destruct ms; [done|]. by rewrite dict_set_twice.
Qed.

Lemma calculate_scores_unsupported labels results scores pre m post :
  Forall (fun x => x = "bleu") pre -> m <> "bleu" ->
  calculate_scores labels results scores (pre ++ m :: post) =
    match pre, compute_bleu labels results 1 with
    | _ :: _, Raise e => Raise e
    | _, _ => Raise (ValueError ("Not Support Metric: '" +:+ m +:+ "'"))
    end.
Proof.
  intros Hpre Hm. revert scores.
  induction Hpre as [|x pre -> _ IH]; intros scores; simpl.
  - rewrite decide_False by done. by destruct (compute_bleu labels results 1).
  - destruct (compute_bleu labels results 1) as [bleu|e] eqn:Hbleu; simpl;
      [|done].
    rewrite IH. by destruct pre.
Qed.

Lemma first_unsupported (metrics : list string) (m : string) :
  m ∈ metrics -> m <> "bleu" ->
  exists pre m' post,
    metrics = (pre ++ m' :: post)%list
    /\ Forall (fun x => x = "bleu") pre
    /\ m' <> "bleu".
Proof.
  intros Hin Hne.
  induction metrics as [|x ms IH]; [by apply elem_of_nil in Hin|].
  destruct (decide (x = "bleu")) as [->|Hx].
  - apply elem_of_cons in Hin as [->|Hin]; [done|].
    destruct (IH Hin) as (pre & m' & post & -> & Hpre & Hm').
    exists ("bleu" :: pre), m', post. repeat split; [by constructor|done].
  - exists [], x, ms. repeat split; [constructor|done].
Qed.

(** C8: when [hidden_size] is not passed to the constructor,
    [self.hidden_size] is 512, although the docstring of the class
    documents 128 as the default of the decoder's hidden size. *)
Theorem hidden_size_default_is_512 (a : init_args) :
  arg_hidden_size a = None ->
  hidden_size (TextGenerationTask__init__ a) = 512
  /\ docstring_default_hidden_size = 128
  /\ hidden_size (TextGenerationTask__init__ a) <> docstring_default_hidden_size.
Proof.
  intros Hnone. unfold TextGenerationTask__init__; simpl. rewrite Hnone. simpl.
  unfold docstring_default_hidden_size. repeat split. lia.
Qed.

(** C9: constructed with [metrics_choices='default'] (passed or left
    to the default of the parameter), the task hands [['bleu']] to the
    base class.  Once the run states have been read, the loop over
    [metrics_choices] raises [ValueError] at the first name other than
    ['bleu']; a ['bleu'] before it has [compute_bleu] called, whose
    exception, if it raises one, comes first.  When every name is
    ['bleu'], the score stored under ['bleu'] is the first component of
    what [compute_bleu] returns on the collected labels and results at
    [max_order] 1, and an exception of [compute_bleu] is the exception
    of [_calculate_metrics]. *)
Theorem metrics_default_and_bleu_only (a : init_args)
    (self : TextGenerationTask) (now : F) (run_states : list eval_state)
    (acc : metric_acc) (first : eval_state) :
  default (MStr "default") (arg_metrics_choices a) = MStr "default" ->
  calculate_loop self run_states = Ok acc ->
  py_getitem run_states 0 = Ok first ->
  f_is_zero (fsub now (run_time_begin first)) = false ->
  base (TextGenerationTask__init__ a) =
    BaseTask__init__ (arg_dataset a) (var_program (arg_feature a))
      (arg_startup_program a) (arg_config a) (MList ["bleu"])
  /\ (forall m, m ∈ metrics_choices (base self) -> m <> "bleu" ->
      exists pre m' post,
        metrics_choices (base self) = (pre ++ m' :: post)%list
        /\ Forall (fun x => x = "bleu") pre
        /\ m' <> "bleu"
        /\ _calculate_metrics self now run_states =
             match pre, compute_bleu (acc_labels acc) (acc_results acc) 1 with
             | _ :: _, Raise e => Raise e
             | _, _ =>
                 Raise (ValueError ("Not Support Metric: '" +:+ m' +:+ "'"))
             end)
  /\ (Forall (fun m => m = "bleu") (metrics_choices (base self)) ->
      exists avg_loss run_speed,
        _calculate_metrics self now run_states =
          match metrics_choices (base self),
                compute_bleu (acc_labels acc) (acc_results acc) 1 with
          | [], _ => Ok ([], avg_loss, run_speed)
          | _ :: _, Ok bleu => Ok ([("bleu", bleu.1)], avg_loss, run_speed)
          | _ :: _, Raise e => Raise e
          end).
Proof.
  intros Hdefault Hloop Hfirst Htime. split; [|split].
  - unfold TextGenerationTask__init__; simpl. by rewrite Hdefault.
  - intros m Hin Hne.
    destruct (first_unsupported _ m Hin Hne)
      as (pre & m' & post & Hsplit & Hpre & Hm').
    exists pre, m', post. repeat split; [done..|].
    unfold _calculate_metrics. rewrite Hloop; simpl. rewrite Hfirst; simpl.
    rewrite Htime; simpl. rewrite Hsplit.
    rewrite (calculate_scores_unsupported _ _ _ _ _ _ Hpre Hm').
    destruct pre; [done|].
    by destruct (compute_bleu (acc_labels acc) (acc_results acc) 1).
  - intros Hall. eexists _, _.
    unfold _calculate_metrics. rewrite Hloop; simpl. rewrite Hfirst; simpl.
    rewrite Htime; simpl.
    rewrite (calculate_scores_all_bleu _ _ _ _ Hall).
    destruct (metrics_choices (base self)); [done|].
    by destruct (compute_bleu (acc_labels acc) (acc_results acc) 1).
Qed.
End TaskProperties.

Lemma hidden_size_default_is_512_witness :
  arg_hidden_size example_args = None
  /\ hidden_size (TextGenerationTask__init__ example_args) = 512
  /\ docstring_default_hidden_size = 128
  /\ hidden_size (TextGenerationTask__init__ example_args)
     <> docstring_default_hidden_size.
Proof.
  split; [reflexivity|].
  apply (hidden_size_default_is_512 example_args). reflexivity.
Defined.

Example calculate_metrics_example :
  _calculate_metrics example_task 102 [example_eval_state] =
    Ok ([("bleu", 2)], 3, 0)
  /\ _calculate_metrics example_task_rouge 102 [example_eval_state] =
       Raise (ValueError "Not Support Metric: 'rouge'")
  /\ _calculate_metrics example_task 102 [example_eval_state_len2] =
       Raise ZeroDivisionError
  /\ _calculate_metrics example_task_rouge 102 [example_eval_state_len2] =
       Raise ZeroDivisionError.
Proof. repeat split; reflexivity. Qed.

Lemma metrics_default_and_bleu_only_witness :
  default (MStr "default") (arg_metrics_choices example_args) = MStr "default"
  /\ py_getitem [example_eval_state] 0 = Ok example_eval_state
  /\ f_is_zero (fsub 102 (run_time_begin example_eval_state)) = false
  /\ forall self, self = example_task \/ self = example_task_rouge ->
     exists acc,
      calculate_loop self [example_eval_state] = Ok acc
      /\ base (TextGenerationTask__init__ example_args) =
           BaseTask__init__ (arg_dataset example_args)
             (var_program (arg_feature example_args))
             (arg_startup_program example_args) (arg_config example_args)
             (MList ["bleu"])
      /\ (forall m, m ∈ metrics_choices (base self) -> m <> "bleu" ->
            exists pre m' post,
              metrics_choices (base self) = (pre ++ m' :: post)%list
              /\ Forall (fun x => x = "bleu") pre
              /\ m' <> "bleu"
              /\ _calculate_metrics self 102 [example_eval_state] =
                   match pre,
                         compute_bleu (acc_labels acc) (acc_results acc) 1 with
                   | _ :: _, Raise e => Raise e
                   | _, _ =>
                       Raise (ValueError
                                ("Not Support Metric: '" +:+ m' +:+ "'"))
                   end)
      /\ (Forall (fun m => m = "bleu") (metrics_choices (base self)) ->
          exists avg_loss run_speed,
            _calculate_metrics self 102 [example_eval_state] =
              match metrics_choices (base self),
                    compute_bleu (acc_labels acc) (acc_results acc) 1 with
              | [], _ => Ok ([], avg_loss, run_speed)
              | _ :: _, Ok bleu =>
                  Ok ([("bleu", bleu.1)], avg_loss, run_speed)
              | _ :: _, Raise e => Raise e
              end).
Proof.
  split; [reflexivity|]. split; [reflexivity|]. split; [reflexivity|].
  intros self [->| ->]; eexists; (split; [vm_compute; reflexivity|]).
  - apply (metrics_default_and_bleu_only example_args example_task
             102 [example_eval_state] _ example_eval_state);
      reflexivity.
  - apply (metrics_default_and_bleu_only example_args example_task_rouge
             102 [example_eval_state] _ example_eval_state);
      reflexivity.
Defined.

(** ** The truncation to the sequence length *)

Lemma Forall2_concat {A B : Type} (P : A -> B -> Prop)
    (ls : list (list A)) (ks : list (list B)) :
  Forall2 (Forall2 P) ls ks -> Forall2 P (concat ls) (concat ks).
Proof. induction 1; simpl; [constructor | by apply Forall2_app]. Qed.

Section Truncation.
Context `{Hub}.

Lemma decode_beam_truncated self seq_lens i beam_infer tokens :
  (n ← py_getitem seq_lens i;
   for_each (py_getitem (_label_list (base self)))
            (py_slice_to beam_infer (n - 2))) = Ok tokens ->
  truncated_beam self seq_lens i beam_infer tokens.
Proof.
  intros (n' & Hn' & Heach)%bind_Ok n Hn Hge.
  rewrite Hn in Hn'. injection Hn' as <-.
  rewrite py_slice_to_nonneg in Heach by lia.
  apply for_each_Forall2 in Heach as Hall.
  apply Forall2_length in Hall as Hlen. rewrite length_take in Hlen.
  split; [done|]. split; [lia|].
  intros ->. simpl in Hlen. by destruct tokens.
Qed.

Lemma postprocessing_Forall2 self run_states results :
  _postprocessing self run_states = Ok results ->
  Forall2 (fun '(seq_lens, i, sample) beams =>
             Forall2 (fun beam_infer tokens =>
                        (n ← py_getitem seq_lens i;
                         for_each (py_getitem (_label_list (base self)))
                                  (py_slice_to beam_infer (n - 2)))
                        = Ok tokens)
                     (rows (transpose sample)) beams)
          (predict_samples run_states) results.
Proof.
  unfold _postprocessing, predict_samples.
  intros (batches & Hbatches & ->)%fmap_Ok.
  apply Forall2_concat, Forall2_fmap_l.
  apply for_each_Forall2 in Hbatches.
  eapply Forall2_impl; [exact Hbatches|]. clear Hbatches.
  intros st batch Hbatch%for_each_Forall2. simpl.
  apply Forall2_fmap_l.
  eapply Forall2_impl; [exact Hbatch|]. clear Hbatch.
  intros [i sample] beams Hbeams%for_each_Forall2. done.
Qed.

Lemma postprocessing_truncated self run_states results :
  _postprocessing self run_states = Ok results ->
  Forall2 (fun '(seq_lens, i, sample) beams =>
             Forall2 (truncated_beam self seq_lens i)
                     (rows (transpose sample)) beams)
          (predict_samples run_states) results.
Proof.
  intros Hpost%postprocessing_Forall2.
  eapply Forall2_impl; [exact Hpost|].
  intros [[seq_lens i] sample] beams Hbeams.
  eapply Forall2_impl; [exact Hbeams|].
  intros beam_infer tokens. apply decode_beam_truncated.
Qed.

Lemma sample_stop_no_wrap i max_len n :
  0 <= i -> 0 <= max_len -> 2 <= n -> i * max_len + n < 2 ^ 63 ->
  sample_stop i max_len n = i * max_len + n - 2.
Proof.
  intros Hi Hm Hn Hov. unfold sample_stop, wrap64.
  assert (0 <= i * max_len) by lia.
  assert (2 ^ (64 - 1) = 2 ^ 63) as Hpow by done.
  rewrite (wrap_id 64 (i * max_len + n)) by (rewrite ?Hpow; lia).
  apply wrap_id; rewrite ?Hpow; lia.
Qed.

Lemma sample_slice (ids : list Z) i max_len n :
  0 <= i -> 0 <= max_len -> 2 <= n -> i * max_len + n < 2 ^ 63 ->
  py_slice ids (i * max_len) (sample_stop i max_len n) =
    take (Z.to_nat (n - 2)) (drop (Z.to_nat (i * max_len)) ids).
Proof.
  intros Hi Hm Hn Hov. rewrite sample_stop_no_wrap by done.
  assert (0 <= i * max_len) by lia.
  rewrite py_slice_nonneg by lia. do 2 f_equal. lia.
Qed.

Lemma calculate_step_truncated self acc st acc' :
  calculate_step self acc st = Ok acc' ->
  exists pairs,
    acc_labels acc' = (acc_labels acc ++ pairs.*1)%list
    /\ acc_results acc' = (acc_results acc ++ pairs.*2)%list
    /\ Forall2 (fun i p =>
                  truncated_sample self st i (eval_labels st) p.1
                  /\ truncated_sample self st i (eval_infers st) p.2)
               (py_range (Z.of_nat (length (eval_lens st)))) pairs.
Proof.
  unfold calculate_step.
  intros (max_len & Hmax & (pairs & Hpairs & [= <-])%bind_Ok)%bind_Ok.
  exists pairs. simpl. split; [done|]. split; [done|].
  unfold py_floordiv in Hmax. destruct (_ =? 0) eqn:Hbatch; [done|].
  injection Hmax as <-.
  apply for_each_Forall2 in Hpairs.
  eapply Forall2_impl; [exact Hpairs|]. clear Hpairs.
  intros i [label result] (len_i & Hlen & Hbody)%bind_Ok.
  apply bind_Ok in Hbody as (lab & Hlab & Hbody).
  apply bind_Ok in Hbody as (res' & Hres & [= <- <-]).
  simpl. unfold truncated_sample.
  split; intros n Hi Hn Hge Hov; rewrite Hn in Hlen; injection Hlen as <-;
    [rename Hlab into Hids | rename Hres into Hids];
    (rewrite sample_slice in Hids; [|done|apply Z.div_pos; lia|done..]);
    apply for_each_Forall2 in Hids as Hall; (split; [done|]);
    apply Forall2_length in Hall; rewrite length_take in Hall; lia.
Qed.

Lemma for_fold_truncated self run_states : forall acc0 acc,
  for_fold (calculate_step self) acc0 run_states = Ok acc ->
  exists labels results,
    acc_labels acc = (acc_labels acc0 ++ labels)%list
    /\ acc_results acc = (acc_results acc0 ++ results)%list
    /\ Forall2 (fun '(st, i) label =>
                  truncated_sample self st i (eval_labels st) label)
               (eval_samples run_states) labels
    /\ Forall2 (fun '(st, i) result =>
                  truncated_sample self st i (eval_infers st) result)
               (eval_samples run_states) results.
Proof.
  induction run_states as [|st rs IH]; intros acc0 acc; simpl.
  - intros [= <-]. exists [], []. rewrite !app_nil_r.
    repeat split; constructor.
  - intros (acc1 & Hstep & Hrest)%bind_Ok.
    apply calculate_step_truncated in Hstep as (pairs & Hl1 & Hr1 & Hpairs).
    apply IH in Hrest as (labels & results & Hl & Hr & Hlabels & Hresults).
    exists (pairs.*1 ++ labels)%list, (pairs.*2 ++ results)%list.
    rewrite Hl, Hr, Hl1, Hr1, <- !app_assoc.
    split; [done|]. split; [done|].
    unfold eval_samples. rewrite fmap_cons. simpl.
    split; (apply Forall2_app; [|done]);
      apply Forall2_fmap_l, Forall2_fmap_r;
      (eapply Forall2_impl; [exact Hpairs|]); simpl; by intros ?? [??].
Qed.

(** C10: whenever [seq_lens[i] >= 2], [_postprocessing] maps to labels
    the first [seq_lens[i] - 2] ids of every beam of sample [i], so a
    returned token sequence has at most [seq_lens[i] - 2] tokens and is
    empty for a length of 2; the loop of [_calculate_metrics] cuts the
    labels and the inferences of a sample to the same [seq_len - 2]
    ids, counted from the offset of the sample. *)
Theorem truncation_to_seq_len_minus_two (self : TextGenerationTask)
    (predict_states : list predict_state)
    (results : list (list (list string)))
    (eval_states : list eval_state) (acc : metric_acc) :
  _postprocessing self predict_states = Ok results ->
  calculate_loop self eval_states = Ok acc ->
  Forall2 (fun '(seq_lens, i, sample) beams =>
             Forall2 (truncated_beam self seq_lens i)
                     (rows (transpose sample)) beams)
          (predict_samples predict_states) results
  /\ Forall2 (fun '(st, i) label =>
                truncated_sample self st i (eval_labels st) label)
             (eval_samples eval_states) (acc_labels acc)
  /\ Forall2 (fun '(st, i) result =>
                truncated_sample self st i (eval_infers st) result)
             (eval_samples eval_states) (acc_results acc).
Proof.
  intros Hpost Hloop. split; [by apply postprocessing_truncated|].
  apply for_fold_truncated in Hloop
    as (labels & results' & Hl & Hr & Hlabels & Hresults).
  simpl in Hl, Hr. by rewrite Hl, Hr.
Qed.
End Truncation.

Example postprocessing_example :
  _postprocessing example_task [example_predict_state] =
    Ok [[["a"; "b"]; ["b"; "a"]]; [["b"]; ["b"]]].
Proof. reflexivity. Qed.

Lemma truncation_to_seq_len_minus_two_witness :
  exists results acc,
    _postprocessing example_task [example_predict_state] = Ok results
    /\ calculate_loop example_task [example_eval_state] = Ok acc
    /\ Forall2 (fun '(seq_lens, i, sample) beams =>
                  Forall2 (truncated_beam example_task seq_lens i)
                          (rows (transpose sample)) beams)
               (predict_samples [example_predict_state]) results
    /\ Forall2 (fun '(st, i) label =>
                  truncated_sample example_task st i (eval_labels st) label)
               (eval_samples [example_eval_state]) (acc_labels acc)
    /\ Forall2 (fun '(st, i) result =>
                  truncated_sample example_task st i (eval_infers st) result)
               (eval_samples [example_eval_state]) (acc_results acc).
Proof.
  eexists _, _. split; [vm_compute; reflexivity|].
  split; [vm_compute; reflexivity|].
  apply (truncation_to_seq_len_minus_two example_task
           [example_predict_state] _ [example_eval_state] _);
    reflexivity.
Defined.

(** ** Building the network *)

Section Network.
Context `{Hub}.
Context `{StaticGraph}.

Lemma bind_Ok_l {A B : Type} (a : A) (k : A -> res B) : Ok a ≫= k = k a.
Proof. done. Qed.

Lemma new_op_Ok (t t' : tensor) : new_op t = Ok t' -> t' = t.
Proof. unfold new_op. destruct (op_error t); [done|]. by intros [= <-]. Qed.

(** The first operation of [forward] joins the step input and the input
    feed along axis 1: a step input of a rank below two is rejected. *)
Lemma forward_rank_one_rejected (cell : AttentionDecoderCell)
    (step_input : tensor) (states : list (tensor * tensor) * tensor)
    (enc_output : tensor) (mask : option tensor) (r : Z) :
  static_rank step_input = Some r -> r <= 1 ->
  exists msg,
    Static.forward cell step_input states enc_output mask =
      Raise (ValueError msg).
Proof.
  intros Hrank Hle. destruct states as [lstm_states input_feed].
  destruct (concat_axis_within_rank step_input [input_feed] 1 r Hrank Hle)
    as [msg Hmsg].
  exists msg. unfold Static.forward, new_op. by rewrite Hmsg.
Qed.

(** A recurrent layer over inputs of a rank below three hands the cell a
    step input of a rank below two. *)
Lemma rnn_rank_two_rejected (cell : AttentionDecoderCell) (inputs : tensor)
    (inits : list (tensor * tensor) * tensor) (enc_output mask : tensor)
    (r : Z) :
  static_rank inputs = Some r -> r <= 2 ->
  exists e, RNN__call__ cell inputs inits enc_output mask = Raise e.
Proof.
  intros Hrank Hle. unfold RNN__call__.
  destruct (new_op (StepInput inputs)) as [step_input|e] eqn:Hstep;
    [|by eexists].
  apply new_op_Ok in Hstep as ->.
  destruct (forward_rank_one_rejected cell (StepInput inputs)
              (step_states inits) enc_output (Some mask) (r - 1))
    as [msg Hmsg]; [by simpl; rewrite Hrank|lia|].
  exists (ValueError msg). by rewrite bind_Ok_l, Hmsg.
Qed.

Lemma dynamic_decode_Ok decoder inits max_step_num enc_output mask t :
  dynamic_decode decoder inits max_step_num enc_output mask = Ok t ->
  t = DynamicDecode decoder inits.1 inits.2 max_step_num enc_output mask.
Proof.
  unfold dynamic_decode.
  intros (step_input & _ & (_ & _ & Ht)%bind_Ok)%bind_Ok.
  by apply new_op_Ok in Ht.
Qed.

Lemma len_label_list_Ok self n :
  len_label_list self = Ok n ->
  dataset (base self) <> None
  /\ n = Z.of_nat (length (_label_list (base self))).
Proof.
  unfold len_label_list. destruct (dataset (base self)); [|done].
  by intros [= <-].
Qed.

(** What a call of [_build_net] that returns has gone through, and what
    it returns. *)
Lemma build_net_inv (self : TextGenerationTask) outputs attrs :
  _build_net self = Ok (outputs, attrs) ->
  exists input_size dec_cell start_id end_id,
    py_getitem (var_shape (feature self)) (-1) = Ok input_size
    /\ AttentionDecoderCell__init__ (num_layers self) input_size
         (hidden_size self) (dropout self) None = Ok dec_cell
    /\ dataset (base self) <> None
    /\ find_index (start_token self) (_label_list (base self)) = Some start_id
    /\ find_index (end_token self) (_label_list (base self)) = Some end_id
    /\ is_predict_phase (base self) = true
    /\ let seq_len := Data "seq_len" [1] "int64" in
       let mask :=
         SubScalar (SequenceMask (Squeeze seq_len) (max_seq_len self) "float32")
                   1%Q in
       let hidden :=
         Fc (Input (feature self)) (hidden_size self) 1
            (Some {| pa_name := "dec_init_hidden_w";
                     pa_initializer := Some (TruncatedNormal (2 # 100)%Q) |})
            (Some {| pa_name := "dec_init_hidden_b";
                     pa_initializer := Some (Constant 0%Q) |}) in
       let zeros := InitialStates (Input (feature self)) [hidden_size self] in
       let tar_vocab_size := Z.of_nat (length (_label_list (base self))) in
       let decoder :=
         {| bsd_cell := dec_cell;
            bsd_start_token := Z.of_nat start_id;
            bsd_end_token := Z.of_nat end_id;
            bsd_beam_size := beam_size self;
            bsd_embedding_fn :=
              {| emb_size := (tar_vocab_size, hidden_size self);
                 emb_dtype := "float32";
                 emb_is_sparse := false;
                 emb_param_attr :=
                   {| pa_name := "target_embedding";
                      pa_initializer :=
                        Some (Uniform (- (1 # 10))%Q (1 # 10)%Q) |} |};
            bsd_output_fn :=
              {| out_size := tar_vocab_size;
                 out_weight_attr :=
                   {| pa_name := "output_w"; pa_initializer := None |} |} |} in
       let ids :=
         DynamicDecode decoder
           (replicate (Z.to_nat (num_layers self)) (hidden, zeros)) zeros
           (beam_max_step_num self)
           (TileBeamMergeWithBatch (Input (token_feature self)) (beam_size self))
           (TileBeamMergeWithBatch mask (beam_size self)) in
       outputs = OutVar ids
       /\ attrs = {| seq_len := seq_len; seq_len_used := Squeeze seq_len;
                     dec_input := None; logits := None; ret_infers := ids |}.
Proof.
  unfold _build_net, py_index.
  intros (seq_len & ->%new_op_Ok & Hnet)%bind_Ok.
  apply bind_Ok in Hnet as (seq_len_used & ->%new_op_Ok & Hnet).
  apply bind_Ok in Hnet as (src_mask & ->%new_op_Ok & Hnet).
  apply bind_Ok in Hnet as (mask & ->%new_op_Ok & Hnet).
  apply bind_Ok in Hnet as (input_size & Hinput & Hnet).
  apply bind_Ok in Hnet as (dec_cell & Hcell & Hnet).
  apply bind_Ok in Hnet as (hidden & ->%new_op_Ok & Hnet).
  apply bind_Ok in Hnet as (zeros & ->%new_op_Ok & Hnet).
  apply bind_Ok in Hnet as (input_feed & ->%new_op_Ok & Hnet).
  apply bind_Ok in Hnet as (size & [Hdataset ->]%len_label_list_Ok & Hnet).
  destruct (find_index (start_token self) _) as [start_id|] eqn:Hstart;
    [|done].
  destruct (find_index (end_token self) _) as [end_id|] eqn:Hend; [|done].
  simpl in Hnet.
  exists input_size, dec_cell, start_id, end_id.
  do 5 (split; [done|]).
  destruct (is_predict_phase (base self)); simpl in Hnet.
  - split; [done|].
    apply bind_Ok in Hnet as (enc_output & ->%new_op_Ok & Hnet).
    apply bind_Ok in Hnet as (tiled & ->%new_op_Ok & Hnet).
    apply bind_Ok in Hnet as (ids & ->%dynamic_decode_Ok & Hnet).
    simpl in Hnet. by injection Hnet as <- <-.
  - exfalso.
    apply bind_Ok in Hnet as (dec_input & ->%new_op_Ok & Hnet).
    apply bind_Ok in Hnet as (tar_emb & ->%new_op_Ok & Hnet).
    apply bind_Ok in Hnet as (dec_output & Hrnn & _).
    match type of Hrnn with
    | RNN__call__ ?cell ?inputs ?inits ?enc ?mask = _ =>
        destruct (rnn_rank_two_rejected cell inputs inits enc mask 2)
          as [e He]; [done|lia|]
    end.
    by rewrite He in Hrnn.
Qed.

(** What the source fixes of the decoding: the step cap handed to
    [dynamic_decode] is [beam_max_step_num], 30 unless it is passed, and
    the decoder is given [beam_size] and the positions of [start_token]
    and [end_token] in the label list.  How many steps the framework then
    runs is not part of the sources. *)
Lemma beam_max_step_num_default (a : init_args) :
  arg_beam_max_step_num a = None ->
  beam_max_step_num (TextGenerationTask__init__ a) = 30.
Proof. intros Hnone. unfold TextGenerationTask__init__. simpl. by rewrite Hnone. Qed.

Lemma build_net_decoder_arguments (self : TextGenerationTask) outputs attrs :
  _build_net self = Ok (outputs, attrs) ->
  exists decoder lstm_states input_feed enc_output mask start_id end_id,
    outputs = OutVar (DynamicDecode decoder lstm_states input_feed
                        (beam_max_step_num self) enc_output mask)
    /\ find_index (start_token self) (_label_list (base self)) = Some start_id
    /\ find_index (end_token self) (_label_list (base self)) = Some end_id
    /\ bsd_start_token decoder = Z.of_nat start_id
    /\ bsd_end_token decoder = Z.of_nat end_id
    /\ bsd_beam_size decoder = beam_size self.
Proof.
  intros (input_size & dec_cell & start_id & end_id & _ & _ & _ & Hstart
          & Hend & _ & -> & _)%build_net_inv.
  by eexists _, _, _, _, _, start_id, end_id.
Qed.

Lemma new_op_Raise (t : tensor) (e : exn) :
  new_op t = Raise e -> op_error t = Some e.
Proof. unfold new_op. destruct (op_error t); [by intros [= <-]|done]. Qed.

(** One call of the part of [_build_net] that does not depend on the
    phase: when it raises, so does the network of the predict phase. *)
Ltac shared_step :=
  match goal with
  | |- exists e, ?m ≫= _ = Raise e /\ _ =>
      let e := fresh "e" in
      destruct m as [?|e] eqn:?; simpl;
      [|exists e; split; [reflexivity|right; left; reflexivity]]
  end.

(** C5: in a phase other than the predict phase [_build_net] never
    returns the softmax of the logits, nor anything else: it raises.
    The decoder input is declared with the shape [[max_seq_len]], so
    its embedding has two dimensions, the recurrent layer hands the cell
    a step input of one dimension, and the first operation of [forward],
    the concatenation along axis 1, is rejected with [ValueError].  Any
    other exception was raised before: by the part of [_build_net] that
    the predict phase runs as well, or by the framework when the decoder
    input was declared, embedded or handed to the cell. *)
Theorem non_predict_build_raises (self : TextGenerationTask) :
  is_predict_phase (base self) = false ->
  exists e,
    _build_net self = Raise e
    /\ ((exists msg, e = ValueError msg)
        \/ _build_net (with_predict_phase true self) = Raise e
        \/ exists fn,
             let dec_input := Data "dec_input" [max_seq_len self] "int64" in
             op_error dec_input = Some e
             \/ op_error (Embedding dec_input fn) = Some e
             \/ op_error (StepInput (Embedding dec_input fn)) = Some e).
Proof.
  intros Hphase. unfold _build_net, len_label_list, py_index.
  rewrite Hphase. simpl.
  do 11 shared_step.
  match goal with
  | |- context [Embedding _ ?fn] => set (embedder := fn)
  end.
  destruct (new_op (Data "dec_input" [max_seq_len self] "int64"))
    as [dec_input|e] eqn:Hdec; simpl.
  2: { exists e. split; [done|]. right; right. exists embedder. left.
       by apply new_op_Raise. }
  apply new_op_Ok in Hdec as ->.
  destruct (new_op (Embedding _ embedder)) as [tar_emb|e] eqn:Hemb; simpl.
  2: { exists e. split; [done|]. right; right. exists embedder. right; left.
       by apply new_op_Raise. }
  apply new_op_Ok in Hemb as ->.
  unfold RNN__call__.
  destruct (new_op (StepInput _)) as [step_input|e] eqn:Hstep; simpl.
  2: { exists e. split; [done|]. right; right. exists embedder. right; right.
       by apply new_op_Raise. }
  apply new_op_Ok in Hstep as ->.
  match goal with
  | |- context [new_op (Concat (?x :: ?xs) 1)] =>
      destruct (concat_axis_within_rank x xs 1 1) as [msg Hmsg]; [done|lia|];
      assert (new_op (Concat (x :: xs) 1) = Raise (ValueError msg)) as ->
        by (unfold new_op; by rewrite Hmsg);
      simpl
  end.
  exists (ValueError msg). split; [done|]. left. by exists msg.
Qed.
End Network.

(** The network on the example tasks: in the training phase the
    concatenation is rejected; with two beams the mask of [4 * 2]
    entries cannot be added to scores over 4 positions; with one beam
    the decoder is built; without a dataset there is no label list. *)
Example build_net_example :
  _build_net example_task_train =
    Raise (ValueError "concat: the axis is outside the rank of the first input")
  /\ _build_net example_task =
       Raise (ValueError "elementwise_add: the shapes cannot be broadcast")
  /\ (exists decoder lstm_states input_feed enc_output mask attrs,
        _build_net example_task_one_beam =
          Ok (OutVar (DynamicDecode decoder lstm_states input_feed 30
                        enc_output mask), attrs)
        /\ bsd_beam_size decoder = 1)
  /\ _build_net example_task_no_dataset =
       Raise (TypeError "object of type 'NoneType' has no len()").
Proof.
  split; [vm_compute; reflexivity|]. split; [vm_compute; reflexivity|].
  split; [|vm_compute; reflexivity].
  eexists _, _, _, _, _, _. split; [vm_compute; reflexivity|reflexivity].
Qed.

Lemma non_predict_build_raises_witness :
  is_predict_phase (base example_task_train) = false
  /\ exists e,
      _build_net example_task_train = Raise e
      /\ ((exists msg, e = ValueError msg)
          \/ _build_net (with_predict_phase true example_task_train) = Raise e
          \/ exists fn,
               let dec_input :=
                 Data "dec_input" [max_seq_len example_task_train] "int64" in
               op_error dec_input = Some e
               \/ op_error (Embedding dec_input fn) = Some e
               \/ op_error (StepInput (Embedding dec_input fn)) = Some e).
Proof.
  split; [reflexivity|].
  apply (non_predict_build_raises example_task_train). reflexivity.
Defined.

(** ** Attention *)

Section AttentionProperties.
Context `{Paddle}.

Lemma broadcast_same_length {A B C : Type} (f : A -> B -> option C)
    (g : A -> B -> C) (xs : list A) (ys : list B) :
  Forall2 (fun x y => f x y = Some (g x y)) xs ys ->
  broadcast f xs ys = Some (zip_with g xs ys).
Proof.
  intros Hall. unfold broadcast.
  rewrite decide_True by (by eapply Forall2_length).
  apply mapM_Some_2. induction Hall; simpl; constructor; done.
Qed.

Lemma fmap_nth_seq {A : Type} (d : A) (l : list A) :
  (fun j => nth j l d) <$> seq 0 (length l) = l.
Proof.
  induction l as [|a l IH] using rev_ind; [done|].
  rewrite length_app. simpl. rewrite Nat.add_1_r, seq_S, fmap_app. simpl.
  rewrite app_nth2, Nat.sub_diag by lia. simpl. f_equal.
  rewrite <- IH at 2. apply list_fmap_ext.
  intros i j [-> Hj]%lookup_seq. by rewrite app_nth1.
Qed.

Lemma transpose102_singletons (rows : list tensor1) :
  rows <> [] -> transpose102 ((fun r => [r]) <$> rows) = [rows].
Proof.
  intros Hne. unfold transpose102. destruct rows as [|r rows]; [done|]. simpl.
  f_equal. f_equal. rewrite <- list_fmap_compose. by rewrite list_fmap_id.
Qed.

Lemma transpose102_single (rows : list tensor1) :
  transpose102 [rows] = (fun r => [r]) <$> rows.
Proof.
  unfold transpose102. simpl.
  trans ((fun r : tensor1 => [r])
           <$> ((fun j => nth j rows []) <$> seq 0 (length rows))).
  - by rewrite <- list_fmap_compose.
  - by rewrite fmap_nth_seq.
Qed.

Lemma length_vecmat n v M : length (vecmat n v M) = n.
Proof. unfold vecmat. by rewrite length_fmap, length_seq. Qed.

Lemma length_linear size p x :
  length (fc_bias p) = size -> length (linear size p x) = size.
Proof.
  intros Hb. unfold linear. rewrite length_zip_with, length_vecmat. lia.
Qed.

Lemma zip_with_singleton {A B C : Type} (g : A -> B -> C) xs ys :
  zip_with (fun x y => [g x y]) xs ys = (fun r => [r]) <$> zip_with g xs ys.
Proof.
  revert ys. induction xs as [|x xs IH]; intros [|y ys]; simpl; [done..|].
  by rewrite IH.
Qed.

Lemma scores_lengths query memory :
  length query = length memory ->
  Forall2 (fun r M => length r = length M) (scores query memory) memory.
Proof.
  revert memory. induction query as [|q query IH]; intros [|M memory] Hlen;
    simpl in *; try done; constructor.
  - by rewrite length_fmap.
  - apply IH. lia.
Qed.

Lemma matmul_transpose_y_scores size p query enc_output :
  length query = length enc_output ->
  length (fc_bias p) = Z.to_nat size ->
  Forall (fun q => length q = Z.to_nat size) query ->
  matmul_transpose_y (unsqueeze1 query) (fc_flatten2 size p enc_output) =
    Some ((fun r => [r]) <$> scores query (fc_flatten2 size p enc_output)).
Proof.
  intros Hlen Hbias Hquery. unfold matmul_transpose_y, unsqueeze1, scores.
  etrans;
    [apply (broadcast_same_length _
              (fun X Y => (fun xi => dot xi <$> Y) <$> X))|].
  2: { by rewrite zip_with_fmap_l, <- zip_with_singleton. }
  - apply Forall2_fmap_l, Forall2_same_length_lookup_2.
    { unfold fc_flatten2. by rewrite length_fmap. }
    intros i q M Hq HM. simpl. rewrite andb_true_r.
    assert (forallb (fun yj => bool_decide (length q = length yj)) M = true)
      as ->; [|done].
    apply forallb_forall. intros yj Hyj%list_elem_of_In.
    apply bool_decide_eq_true.
    unfold fc_flatten2 in HM. rewrite list_lookup_fmap in HM.
    apply fmap_Some in HM as (E & _ & ->).
    apply list_elem_of_fmap in Hyj as (x & -> & _).
    rewrite length_linear by done.
    rewrite Forall_lookup in Hquery. by eapply Hquery.
Qed.

Lemma matmul_weights (R : tensor2) (memory : tensor3) :
  Forall2 (fun r M => length r = length M) R memory ->
  matmul (softmax ((fun r => [r]) <$> R)) memory =
    Some (zip_with
            (fun r M => [vecmat (length (hd [] M)) (softmax_row r) M])
            R memory).
Proof.
  intros HR. unfold matmul, softmax.
  etrans;
    [apply (broadcast_same_length _
              (fun X Y => (fun xi => vecmat (length (hd [] Y)) xi Y) <$> X))|].
  2: { rewrite <- list_fmap_compose. by rewrite zip_with_fmap_l. }
  - rewrite <- list_fmap_compose. apply Forall2_fmap_l.
    eapply Forall2_impl; [exact HR|]. intros r M Hlen. simpl.
    by rewrite softmax_row_length, Hlen, bool_decide_eq_true_2.
Qed.

Lemma add_mask (R m : tensor2) :
  Forall2 (fun r mr => length r = length mr) R m ->
  (a ← add_ten3_mat (transpose102 ((fun r => [r]) <$> R)) m;
   Some (transpose102 a)) =
    Some ((fun r => [r]) <$> zip_with (zip_with fadd) R m).
Proof.
  intros HR. destruct (decide (R = [])) as [->|Hne].
  - apply Forall2_nil_inv_l in HR as ->. done.
  - rewrite transpose102_singletons by done. unfold add_ten3_mat.
    match goal with |- context [broadcast add_mat ?a ?b] =>
      assert (broadcast add_mat a b =
                Some (zip_with (zip_with (zip_with fadd)) a b)) as ->
    end.
    2: { simpl. f_equal. apply transpose102_single. }
    apply broadcast_same_length.
    + constructor; [|constructor]. unfold add_mat.
      apply broadcast_same_length.
      eapply Forall2_impl; [exact HR|]. intros r mr Hlen.
      unfold add_vec. apply broadcast_same_length.
      by apply Forall2_true.
Qed.

Lemma attention_spec_unmasked (query : tensor2) (memory : tensor3) :
  zip_with (fun r M => [vecmat (length (hd [] M)) (softmax_row r) M])
           (scores query memory) memory =
  zip_with (fun q M => [attention_row M q None]) query memory.
Proof.
  revert memory.
  induction query as [|q query IH]; intros [|M memory]; simpl; [done..|].
  by rewrite <- IH.
Qed.

Lemma attention_spec_masked (query m : tensor2) (memory : tensor3) :
  zip_with (fun r M => [vecmat (length (hd [] M)) (softmax_row r) M])
           (zip_with (zip_with fadd) (scores query memory)
                     (scale m 1000000000))
           memory =
  zip_with (fun qm M => [attention_row M qm.1 (Some qm.2)])
           (zip query m) memory.
Proof.
  revert m memory.
  induction query as [|q query IH]; intros [|mr m] [|M memory]; simpl;
    [done..|].
  by rewrite <- IH.
Qed.

(** C7: [attention] is matrix multiplication and softmax.  On tensors
    of matching shapes it returns, for every batch element, the
    product of the softmax weights with the memory, where the memory
    is the linear layer applied to [enc_output], the weights are the
    softmax of the scores, and the scores are the products of the
    query with the rows of the memory, to which [mask * 1000000000] is
    added when a mask is given (and counts as true). *)
Theorem attention_is_matmul_softmax (self : AttentionDecoderCell)
    (dec_memory_w : fc_params) (query : tensor2) (enc_output : tensor3)
    (mask : option tensor2) :
  length query = length enc_output ->
  length (fc_bias dec_memory_w) = Z.to_nat (cell_hidden_size self) ->
  Forall (fun q => length q = Z.to_nat (cell_hidden_size self)) query ->
  (forall m, mask = Some m ->
     tensor_bool m = true
     /\ Forall2 (fun mr E => length mr = length E) m enc_output) ->
  attention self dec_memory_w query enc_output mask =
    Some (attention_spec self dec_memory_w query enc_output mask).
Proof.
  intros Hlen Hbias Hquery Hmask. unfold attention, attention_spec.
  rewrite matmul_transpose_y_scores by done. simpl.
  set (memory := fc_flatten2 (cell_hidden_size self) dec_memory_w enc_output).
  assert (length query = length memory) as Hmem.
  { unfold memory, fc_flatten2. by rewrite length_fmap. }
  pose proof (scores_lengths query memory Hmem) as Hscores.
  assert (forall R : tensor2,
            Forall2 (fun r M => length r = length M) R memory ->
            (weight_memory ← matmul (softmax ((fun r => [r]) <$> R)) memory;
             Some weight_memory) =
            Some (zip_with
                    (fun r M => [vecmat (length (hd [] M)) (softmax_row r) M])
                    R memory)) as Hweights.
  { intros R HR. by rewrite matmul_weights. }
  destruct mask as [m|]; simpl.
  - destruct (Hmask m eq_refl) as [-> Hm].
    assert (Forall2 (fun M mr => length M = length mr)
                    memory (scale m 1000000000)) as Hm'.
    { unfold memory, fc_flatten2, scale. apply Forall2_fmap.
      apply Forall2_flip. eapply Forall2_impl; [exact Hm|].
      intros mr E Hl. simpl. by rewrite !length_fmap. }
    rewrite add_mask.
    2: { eapply Forall2_trans; [|exact Hscores|exact Hm'].
         simpl. congruence. }
    simpl. etrans; [apply Hweights|f_equal; apply attention_spec_masked].
    + apply Forall2_same_length_lookup_2.
      { rewrite length_zip_with.
        apply Forall2_length in Hscores, Hm'. lia. }
      intros i r M (r0 & mr & -> & Hr0 & Hmr)%lookup_zip_with_Some HM.
      rewrite length_zip_with.
      pose proof (Forall2_lookup_lr _ _ _ _ _ _ Hscores Hr0 HM).
      pose proof (Forall2_lookup_lr _ _ _ _ _ _ Hm' HM Hmr). simpl in *. lia.
  - etrans; [by apply Hweights|f_equal; apply attention_spec_unmasked].
Qed.
End AttentionProperties.

Example attention_example :
  attention example_cell example_dec_memory_w example_query
    example_enc_output (Some example_mask) =
  Some [[[-2999999958; -2999999958]]; [[-999999990; -1999999989]]].
Proof. reflexivity. Qed.

Lemma attention_is_matmul_softmax_witness :
  length example_query = length example_enc_output
  /\ length (fc_bias example_dec_memory_w) =
       Z.to_nat (cell_hidden_size example_cell)
  /\ Forall (fun q => length q = Z.to_nat (cell_hidden_size example_cell))
            example_query
  /\ tensor_bool example_mask = true
  /\ Forall2 (fun mr E => length mr = length E) example_mask example_enc_output
  /\ attention example_cell example_dec_memory_w example_query
       example_enc_output (Some example_mask) =
     Some (attention_spec example_cell example_dec_memory_w example_query
             example_enc_output (Some example_mask)).
Proof.
  assert (Forall (fun q => length q = Z.to_nat (cell_hidden_size example_cell))
                 example_query) as Hquery by (repeat constructor).
  assert (Forall2 (fun mr E => length mr = length E)
                  example_mask example_enc_output) as Hmask
    by (repeat constructor).
  split; [reflexivity|]. split; [reflexivity|]. split; [exact Hquery|].
  split; [reflexivity|]. split; [exact Hmask|].
  apply (attention_is_matmul_softmax example_cell example_dec_memory_w
           example_query example_enc_output (Some example_mask)
           eq_refl eq_refl Hquery).
  intros m [= <-]. split; [reflexivity|exact Hmask].
Defined.

(** ** The hub module *)

Lemma append_pdmodel_ne_pdiparams (prefix : string) :
  prefix +:+ ".pdmodel" <> prefix +:+ ".pdiparams".
Proof. induction prefix as [|c prefix IH]; simpl; [done|]. by intros [= ?]. Qed.

Lemma for_each_raises {A B : Type} (f : A -> res B) (P : exn -> Prop)
    (l : list A) :
  (forall a e, f a = Raise e -> P e) ->
  Exists (fun a => exists e, f a = Raise e) l ->
  exists e, for_each f l = Raise e /\ P e.
Proof.
  intros HP. induction l as [|a l IH]; intros Hex; [by inversion Hex|].
  simpl. destruct (f a) as [b|e] eqn:Ha; simpl.
  - apply Exists_cons in Hex as [[e He]|Hex]; [congruence|].
    destruct (IH Hex) as (e & -> & He). simpl. eauto.
  - exists e. eauto.
Qed.

Section KeypointProperties.
Context `{PoseModule}.

Lemma read_path_valid fs path :
  valid_image_path fs path -> exists im, read_path fs path = Ok im.
Proof. intros [im Him]. exists im. unfold read_path. by rewrite Him. Qed.

Lemma read_path_raises fs path e :
  read_path fs path = Raise e -> exists msg, e = AssertionError msg.
Proof.
  unfold read_path. destruct (fs !! path) as [[im|b]|]; [done|..];
    intros [= <-]; by eexists.
Qed.

Lemma read_image_raises o e :
  read_image o = Raise e -> exists msg, e = AttributeError msg.
Proof. destruct o; [..|done|]; intros [= <-]; by eexists. Qed.

(** C1: called with valid image paths, with image arrays, or both, and
    with any choice of the [use_gpu] and [visualization] flags,
    [keypoint_detection] returns one result per input image, and the
    ['data'] entry of every result is a dictionary of keypoints. *)
Theorem keypoint_detection_returns_keypoint_dicts (fs : gmap string file)
    (images : option (list pyval)) (paths : option (list string))
    (use_gpu visualization : bool) :
  Forall (valid_image_path fs) (default [] paths) ->
  Forall is_image_array (default [] images) ->
  exists results,
    keypoint_detection fs images paths use_gpu visualization = Ok results
    /\ length results =
         (length (default [] paths) + length (default [] images))%nat
    /\ Forall data_is_dict results.
Proof.
  intros Hpaths Himages. unfold keypoint_detection.
  destruct (for_each_total (read_path fs) (default [] paths))
    as [from_paths Hfrom_paths].
  { eapply Forall_impl; [exact Hpaths|]. apply read_path_valid. }
  destruct (for_each_total read_image (default [] images))
    as [from_images Hfrom_images].
  { eapply Forall_impl; [exact Himages|]. intros o [a ->]. by exists a. }
  rewrite Hfrom_paths, Hfrom_images. simpl. eexists. split; [done|].
  apply for_each_length in Hfrom_paths, Hfrom_images. split.
  - rewrite length_fmap, length_app. lia.
  - apply Forall_fmap, Forall_forall. intros im _.
    eexists. apply lookup_singleton_eq.
Qed.

(** C2: a [paths] list that contains a path at which no file exists
    makes [keypoint_detection] raise an [AssertionError], whatever the
    other arguments are. *)
Theorem missing_path_raises_AssertionError (fs : gmap string file)
    (images : option (list pyval)) (paths : list string)
    (use_gpu visualization : bool) (path : string) :
  path ∈ paths ->
  fs !! path = None ->
  exists msg,
    keypoint_detection fs images (Some paths) use_gpu visualization =
      Raise (AssertionError msg).
Proof.
  intros Hin Hmissing. unfold keypoint_detection. simpl.
  destruct (for_each_raises (read_path fs)
              (fun e => exists msg, e = AssertionError msg) paths)
    as (e & -> & msg & ->).
  - apply read_path_raises.
  - apply Exists_exists. exists path. split; [done|].
    unfold read_path. rewrite Hmissing. by eexists.
  - by exists msg.
Qed.

(** C3: an [images] list that contains a string where an image array is
    expected makes [keypoint_detection] raise an [AttributeError]
    instead of returning a result. *)
Theorem string_image_raises_AttributeError (fs : gmap string file)
    (images : list pyval) (paths : option (list string))
    (use_gpu visualization : bool) (s : string) :
  VStr s ∈ images ->
  Forall (valid_image_path fs) (default [] paths) ->
  exists msg,
    keypoint_detection fs (Some images) paths use_gpu visualization =
      Raise (AttributeError msg).
Proof.
  intros Hin Hpaths. unfold keypoint_detection. simpl.
  destruct (for_each_total (read_path fs) (default [] paths))
    as [from_paths ->].
  { eapply Forall_impl; [exact Hpaths|]. apply read_path_valid. }
  simpl.
  destruct (for_each_raises read_image
              (fun e => exists msg, e = AttributeError msg) images)
    as (e & -> & msg & ->).
  - apply read_image_raises.
  - apply Exists_exists. exists (VStr s). split; [done|]. by eexists.
  - by exists msg.
Qed.

(** C4: [save_inference_model] with a destination prefix succeeds and
    leaves two artifact files at that prefix, one with the suffix
    [.pdmodel] and one with the suffix [.pdiparams]; every other path is
    as it was before. *)
Theorem save_inference_model_writes_two_files (fs : gmap string file)
    (prefix : string) :
  exists fs',
    save_inference_model fs prefix = Ok fs'
    /\ fs' !! (prefix +:+ ".pdmodel") = Some (Blob pdmodel_bytes)
    /\ fs' !! (prefix +:+ ".pdiparams") = Some (Blob pdiparams_bytes)
    /\ prefix +:+ ".pdmodel" <> prefix +:+ ".pdiparams"
    /\ (forall path,
          path <> prefix +:+ ".pdmodel" -> path <> prefix +:+ ".pdiparams" ->
          fs' !! path = fs !! path).
Proof.
  eexists. split; [reflexivity|].
  pose proof (append_pdmodel_ne_pdiparams prefix) as Hne.
  split; [|split; [|split; [done|]]].
  - rewrite lookup_insert_ne by done. apply lookup_insert_eq.
  - apply lookup_insert_eq.
  - intros path H1 H2. by rewrite !lookup_insert_ne.
Qed.

Lemma check_first_result_ok (kps : list (string * list Z))
    (results : list (gmap string pyval)) :
  check_first_result ({[ "data" := VDict kps ]} :: results) = Ok tt.
Proof.
  unfold check_first_result, py_getitem. simpl.
  unfold dict_getitem. by rewrite lookup_singleton_eq.
Qed.

(** The unit tests pass on a file system in which [setUpClass] has
    stored an image. *)
Lemma unit_tests_pass (resp : response) (fs0 fs : gmap string file) (im : image) :
  fs0 !! "no.jpg" = None ->
  content resp = ImageFile im ->
  setUpClass resp fs0 = Ok fs ->
  test_keypoint_detection1 fs = Ok tt
  /\ test_keypoint_detection2 fs = Ok tt
  /\ test_keypoint_detection3 fs = Ok tt
  /\ test_keypoint_detection4 fs = Ok tt
  /\ test_keypoint_detection5 fs = Ok tt
  /\ test_keypoint_detection6 fs = Ok tt
  /\ test_save_inference_model fs = Ok tt.
Proof.
  intros Hno Hcontent. unfold setUpClass.
  destruct (status_code resp =? 200); [|done]. intros [= <-].
  rewrite Hcontent.
  unfold test_keypoint_detection1, test_keypoint_detection2,
    test_keypoint_detection3, test_keypoint_detection4,
    test_keypoint_detection5, test_keypoint_detection6,
    test_save_inference_model, keypoint_detection, cv2_imread, read_path.
  simpl. rewrite lookup_insert_eq. simpl.
  rewrite lookup_insert_ne, Hno by done. simpl.
  repeat split; try apply check_first_result_ok.
  unfold save_inference_model, os_path_exists. simpl.
  change ("./inference/model" +:+ ".pdiparams")
    with "./inference/model.pdiparams".
  change ("./inference/model" +:+ ".pdmodel") with "./inference/model.pdmodel".
  rewrite lookup_insert_eq, lookup_insert_ne, lookup_insert_eq by done.
  by rewrite !bool_decide_eq_true_2.
Qed.
End KeypointProperties.

Lemma keypoint_detection_returns_keypoint_dicts_witness :
  Forall (valid_image_path example_fs) ["tests/test.jpg"]
  /\ Forall is_image_array [VArray example_image]
  /\ exists results,
      keypoint_detection example_fs (Some [VArray example_image])
        (Some ["tests/test.jpg"]) true true = Ok results
      /\ length results = 2%nat
      /\ Forall data_is_dict results.
Proof.
  assert (Forall (valid_image_path example_fs) ["tests/test.jpg"]) as Hpaths.
  { repeat constructor. exists example_image. reflexivity. }
  assert (Forall is_image_array [VArray example_image]) as Himages.
  { repeat constructor. by exists example_image. }
  split; [exact Hpaths|]. split; [exact Himages|].
  exact (keypoint_detection_returns_keypoint_dicts example_fs
           (Some [VArray example_image]) (Some ["tests/test.jpg"]) true true
           Hpaths Himages).
Defined.

Lemma missing_path_raises_AssertionError_witness :
  "no.jpg" ∈ ["tests/test.jpg"; "no.jpg"]
  /\ example_fs !! "no.jpg" = None
  /\ exists msg,
      keypoint_detection example_fs None (Some ["tests/test.jpg"; "no.jpg"])
        false false = Raise (AssertionError msg).
Proof.
  assert ("no.jpg" ∈ ["tests/test.jpg"; "no.jpg"]) as Hin by (repeat constructor).
  split; [exact Hin|]. split; [reflexivity|].
  exact (missing_path_raises_AssertionError example_fs None
           ["tests/test.jpg"; "no.jpg"] false false "no.jpg" Hin eq_refl).
Defined.

Lemma string_image_raises_AttributeError_witness :
  VStr "test.jpg" ∈ [VStr "test.jpg"]
  /\ Forall (valid_image_path example_fs) (default [] None)
  /\ exists msg,
      keypoint_detection example_fs (Some [VStr "test.jpg"]) None false false =
        Raise (AttributeError msg).
Proof.
  assert (VStr "test.jpg" ∈ [VStr "test.jpg"]) as Hin by (repeat constructor).
  split; [exact Hin|]. split; [constructor|].
  exact (string_image_raises_AttributeError example_fs [VStr "test.jpg"] None
           false false "test.jpg" Hin (Forall_nil_2 _)).
Defined.

(** * Further properties of the code *)

(** ** Loops *)

Lemma for_each_app {A B : Type} (f : A -> res B) (l1 l2 : list A) :
  for_each f (l1 ++ l2) =
    (bs1 ← for_each f l1; bs2 ← for_each f l2; Ok (bs1 ++ bs2)%list).
Proof.
  induction l1 as [|a l1 IH]; simpl.
  - by destruct (for_each f l2).
  - destruct (f a) as [b|e]; simpl; [|done]. rewrite IH.
    destruct (for_each f l1) as [bs1|e]; simpl; [|done].
    by destruct (for_each f l2).
Qed.

Lemma for_each_Raise {A B : Type} (f : A -> res B) (l : list A) (e : exn) :
  for_each f l = Raise e -> exists a, a ∈ l /\ f a = Raise e.
Proof.
  induction l as [|a l IH]; simpl; [done|].
  destruct (f a) as [b|e'] eqn:Ha; simpl.
  - destruct (for_each f l) as [bs|e'']; simpl; [done|].
    intros [= ->]. destruct IH as (a' & Hin & Ha'); [done|].
    exists a'. split; [by right|done].
  - intros [= ->]. exists a. split; [by left|done].
Qed.

Lemma for_fold_app {A S : Type} (f : S -> A -> res S) (s : S) (l1 l2 : list A) :
  for_fold f s (l1 ++ l2) = (s' ← for_fold f s l1; for_fold f s' l2).
Proof.
  revert s. induction l1 as [|a l1 IH]; intros s; simpl; [done|].
  destruct (f s a) as [s'|e]; simpl; [apply IH|done].
Qed.

Lemma for_fold_invariant {A S : Type} (f : S -> A -> res S) (P : S -> Prop)
    (l : list A) (s s' : S) :
  (forall s a s', P s -> a ∈ l -> f s a = Ok s' -> P s') ->
  P s -> for_fold f s l = Ok s' -> P s'.
Proof.
  revert s. induction l as [|a l IH]; intros s Hstep Hs; simpl.
  - by intros [= <-].
  - intros (s1 & Hs1 & Hrest)%bind_Ok.
    eapply (IH s1); [|by eapply Hstep; [|left|]|done].
    intros ???? Hin. eapply Hstep; [done|by right].
Qed.

Lemma py_getitem_Raise {A : Type} (l : list A) (i : Z) (e : exn) :
  py_getitem l i = Raise e -> e = IndexError.
Proof.
  unfold py_getitem. destruct (_ || _); [by intros [= <-]|].
  destruct (l !! _); [done|by intros [= <-]].
Qed.

Lemma length_py_slice {A : Type} (l : list A) (a b : Z) :
  (length (py_slice l a b) <= length l)%nat.
Proof. unfold py_slice. rewrite length_take, length_drop. lia. Qed.

Lemma py_slice_to_neg {A : Type} (l : list A) (k : Z) :
  k < 0 -> py_slice_to l k = take (length l - Z.to_nat (- k)) l.
Proof.
  intros Hk. unfold py_slice_to, py_slice, slice_bound. simpl.
  assert ((k <? 0) = true) as -> by (apply Z.ltb_lt; lia).
  rewrite Z.min_l by lia. simpl. f_equal. lia.
Qed.

(** ** Post-processing of the predictions *)

Lemma subarrays_dims (a : ndarray3) (s : ndarray2) :
  s ∈ subarrays a -> nrows s = dim1 a /\ ncols s = dim2 a.
Proof. unfold subarrays. by intros (i & -> & _)%list_elem_of_fmap. Qed.

Lemma length_transpose_row (m : ndarray2) (r : list Z) :
  r ∈ rows (transpose m) -> (length r <= nrows m)%nat.
Proof.
  unfold rows. intros (i & -> & _)%list_elem_of_fmap.
  rewrite length_take. simpl. lia.
Qed.

Lemma elem_of_concat {A : Type} (x : A) (ls : list (list A)) :
  x ∈ concat ls <-> exists l, x ∈ l /\ l ∈ ls.
Proof.
  induction ls as [|l ls IH]; simpl.
  - split; [by intros ?%elem_of_nil|by intros (l & _ & ?%elem_of_nil)].
  - rewrite elem_of_app, IH. split.
    + intros [Hx|(l' & Hx & Hl')]; [exists l|exists l']; split; try done;
        [by left|by right].
    + intros (l' & Hx & [->|Hl']%elem_of_cons); [by left|right; eauto].
Qed.

Section PostprocessingProperties.
Context `{Hub}.

Lemma length_predict_samples (run_states : list predict_state) :
  length (predict_samples run_states) =
    sum_list ((fun st => dim0 (predict_infers st)) <$> run_states).
Proof.
  unfold predict_samples. induction run_states as [|st rs IH]; [done|].
  rewrite !fmap_cons. simpl. rewrite length_app, IH. f_equal.
  rewrite length_fmap. unfold enumerate.
  rewrite length_zip_with, length_fmap, length_seq, length_subarrays.
  simpl. lia.
Qed.

Lemma predict_samples_elem_of (run_states : list predict_state)
    (seq_lens : list Z) (i : Z) (sample : ndarray2) :
  (seq_lens, i, sample) ∈ predict_samples run_states <->
  exists st j,
    st ∈ run_states
    /\ seq_lens = astype_int32 <$> predict_seq_len st
    /\ i = Z.of_nat j
    /\ subarrays (astype3_int32 (predict_infers st)) !! j = Some sample.
Proof.
  unfold predict_samples. rewrite elem_of_concat. split.
  - intros (l & Hin & (st & -> & Hst)%list_elem_of_fmap).
    apply list_elem_of_fmap in Hin as ([i' s] & [= -> -> ->] & Hs).
    apply list_elem_of_lookup in Hs as [j Hj].
    apply enumerate_lookup in Hj as [-> Hj]. by exists st, j.
  - intros (st & j & Hst & -> & -> & Hj).
    eexists. split; [|apply list_elem_of_fmap; by exists st].
    apply list_elem_of_fmap. exists (Z.of_nat j, sample). split; [done|].
    apply list_elem_of_lookup. exists j. unfold enumerate.
    apply lookup_zip_Some. split; [|done].
    rewrite list_lookup_fmap, lookup_seq_lt; [done|].
    by eapply lookup_lt_Some.
Qed.

Lemma postprocessing_Raise self run_states e :
  _postprocessing self run_states = Raise e -> e = IndexError.
Proof.
  unfold _postprocessing.
  destruct (for_each _ run_states) as [batches|e'] eqn:Hbatches; [done|].
  intros [= ->].
  apply for_each_Raise in Hbatches as (st & _ & Hst).
  apply for_each_Raise in Hst as ([i sample] & _ & Hsample).
  apply for_each_Raise in Hsample as (beam_infer & _ & Hbeam).
  destruct (py_getitem _ i) as [n|e'] eqn:Hn; simpl in Hbeam.
  - apply for_each_Raise in Hbeam as (id & _ & Hid).
    by eapply py_getitem_Raise.
  - injection Hbeam as <-. by eapply py_getitem_Raise.
Qed.

(** X1: [_postprocessing] raises nothing but [IndexError], and raises it
    for one of two reasons only: a sample with a beam has no sequence
    length, or an id that the slice of a beam keeps is not an index of
    the label list. *)
Theorem postprocessing_raises_only_IndexError (self : TextGenerationTask)
    (run_states : list predict_state) (e : exn) :
  _postprocessing self run_states = Raise e ->
  e = IndexError
  /\ exists seq_lens i sample beam_infer,
      (seq_lens, i, sample) ∈ predict_samples run_states
      /\ beam_infer ∈ rows (transpose sample)
      /\ (py_getitem seq_lens i = Raise IndexError
          \/ exists n id,
               py_getitem seq_lens i = Ok n
               /\ id ∈ py_slice_to beam_infer (n - 2)
               /\ py_getitem (_label_list (base self)) id = Raise IndexError).
Proof.
  unfold _postprocessing.
  destruct (for_each _ run_states) as [batches|e'] eqn:Hbatches; [done|].
  intros [= ->].
  apply for_each_Raise in Hbatches as (st & Hst & Hbatch).
  apply for_each_Raise in Hbatch as ([i sample] & Hsample & Hbeams).
  apply for_each_Raise in Hbeams as (beam_infer & Hbeam & Hbody).
  assert ((astype_int32 <$> predict_seq_len st, i, sample)
          ∈ predict_samples run_states) as Hin.
  { unfold predict_samples. apply elem_of_concat. eexists. split;
      [|apply list_elem_of_fmap; by exists st].
    apply list_elem_of_fmap. by exists (i, sample). }
  destruct (py_getitem _ i) as [n|e'] eqn:Hn; simpl in Hbody.
  - apply for_each_Raise in Hbody as (id & Hid & Hlabel).
    pose proof (py_getitem_Raise _ _ _ Hlabel) as ->.
    split; [done|]. eexists _, _, _, _. split; [exact Hin|].
    split; [exact Hbeam|]. right. exists n, id. by rewrite Hn.
  - injection Hbody as <-. pose proof (py_getitem_Raise _ _ _ Hn) as ->.
    split; [done|]. eexists _, _, _, _. split; [exact Hin|].
    split; [exact Hbeam|]. left. exact Hn.
Qed.

(** X2: the results of several batches are the results of the batches
    one after the other: post-processing a run that is split in two
    gives the two lists of results joined, and fails where the first of
    the two parts fails. *)
Theorem postprocessing_app (self : TextGenerationTask)
    (run_states1 run_states2 : list predict_state) :
  _postprocessing self (run_states1 ++ run_states2) =
    (results1 ← _postprocessing self run_states1;
     results2 ← _postprocessing self run_states2;
     Ok (results1 ++ results2)%list).
Proof.
  unfold _postprocessing. rewrite for_each_app.
  destruct (for_each _ run_states1) as [b1|e1]; simpl; [|done].
  destruct (for_each _ run_states2) as [b2|e2]; simpl; [|done].
  by rewrite concat_app.
Qed.

(** X3: when post-processing succeeds there is one result per sample of
    the fetched arrays, one token sequence per column (beam) of the
    array, and no token sequence is longer than the time dimension of
    the array. *)
Theorem postprocessing_result_shape (self : TextGenerationTask)
    (run_states : list predict_state) (results : list (list (list string)))
    (steps beams : nat) :
  _postprocessing self run_states = Ok results ->
  Forall (fun st => (dim1 (predict_infers st) <= steps)%nat
                    /\ dim2 (predict_infers st) = beams) run_states ->
  length results =
    sum_list ((fun st => dim0 (predict_infers st)) <$> run_states)
  /\ Forall (fun beam_result =>
              length beam_result = beams
              /\ Forall (fun seq_result => (length seq_result <= steps)%nat)
                        beam_result)
           results.
Proof.
  intros Hpost%postprocessing_Forall2 Hdims. split.
  - apply Forall2_length in Hpost. by rewrite <- Hpost, length_predict_samples.
  - eapply Forall2_Forall_r; [exact Hpost|].
    apply Forall_forall. intros [[seq_lens i] sample] Hin beam_result Hbeams.
    apply predict_samples_elem_of in Hin as (st & j & Hst & _ & _ & Hj).
    apply list_elem_of_lookup_2, subarrays_dims in Hj as [Hrows Hcols].
    simpl in Hrows, Hcols. rewrite Forall_forall in Hdims.
    destruct (Hdims st Hst) as [Hsteps Hbeam]. split.
    + apply Forall2_length in Hbeams. rewrite length_rows in Hbeams.
      simpl in Hbeams. lia.
    + eapply Forall2_Forall_r; [exact Hbeams|].
      apply Forall_forall.
      intros beam_infer Hrow seq_result (n & _ & Hseq)%bind_Ok.
      apply for_each_length in Hseq. apply length_transpose_row in Hrow.
      pose proof (length_py_slice beam_infer 0 (n - 2)) as Hslice.
      unfold py_slice_to in Hseq. lia.
Qed.

(** X4: a recorded sequence length below 2 makes the bound of the slice
    negative, and the slice then drops ids from the end of the beam:
    [2 - n] of them for the length [n], so that a length of 1 drops the
    last id and a length of 0 the last two. *)
Theorem postprocessing_short_seq_len (self : TextGenerationTask)
    (run_states : list predict_state) (results : list (list (list string))) :
  _postprocessing self run_states = Ok results ->
  Forall2 (fun '(seq_lens, i, sample) beam_result =>
             Forall2 (fun beam_infer seq_result =>
                        forall n, py_getitem seq_lens i = Ok n -> n < 2 ->
                          Forall2 (fun id tok =>
                                     py_getitem (_label_list (base self)) id
                                     = Ok tok)
                                  (take (length beam_infer - Z.to_nat (2 - n))
                                        beam_infer)
                                  seq_result)
                     (rows (transpose sample)) beam_result)
          (predict_samples run_states) results.
Proof.
  intros Hpost%postprocessing_Forall2.
  eapply Forall2_impl; [exact Hpost|].
  intros [[seq_lens i] sample] beam_result Hbeams.
  eapply Forall2_impl; [exact Hbeams|].
  intros beam_infer seq_result (n' & Hn' & Hseq)%bind_Ok n Hn Hlt.
  rewrite Hn in Hn'. injection Hn' as <-.
  rewrite py_slice_to_neg in Hseq by lia.
  apply for_each_Forall2 in Hseq.
  by replace (- (n - 2)) with (2 - n) in Hseq by lia.
Qed.

(** X5: a batch whose array has a beam and more samples than there are
    sequence lengths makes post-processing raise [IndexError]. *)
Theorem postprocessing_missing_seq_len (self : TextGenerationTask)
    (run_states : list predict_state) (st : predict_state) :
  st ∈ run_states ->
  (length (predict_seq_len st) < dim0 (predict_infers st))%nat ->
  (1 <= dim2 (predict_infers st))%nat ->
  _postprocessing self run_states = Raise IndexError.
Proof.
  intros Hst Hlens Hbeams.
  destruct (_postprocessing self run_states) as [results|e] eqn:Hpost;
    [|by apply postprocessing_Raise in Hpost as ->].
  exfalso. apply postprocessing_Forall2 in Hpost.
  set (j := length (predict_seq_len st)).
  destruct (lookup_lt_is_Some_2
              (subarrays (astype3_int32 (predict_infers st))) j)
    as [sample Hsample]; [by rewrite length_subarrays|].
  assert ((astype_int32 <$> predict_seq_len st, Z.of_nat j, sample)
          ∈ predict_samples run_states) as Hin.
  { apply predict_samples_elem_of. by exists st, j. }
  apply list_elem_of_lookup in Hin as [k Hk].
  destruct (Forall2_lookup_l _ _ _ _ _ Hpost Hk) as (beam_result & _ & Hrows).
  simpl in Hrows.
  apply list_elem_of_lookup_2, subarrays_dims in Hsample as [_ Hcols].
  simpl in Hcols.
  destruct (lookup_lt_is_Some_2 (rows (transpose sample)) 0)
    as [beam_infer Hbeam].
  { rewrite length_rows. simpl. lia. }
  destruct (Forall2_lookup_l _ _ _ _ _ Hrows Hbeam)
    as (seq_result & _ & (n & Hn & _)%bind_Ok).
  rewrite py_getitem_nat, lookup_ge_None_2 in Hn; [done|].
  rewrite length_fmap. unfold j. lia.
Qed.
End PostprocessingProperties.

(** ** The metrics of an evaluation run *)

Section MetricsProperties.
Context `{Hub}.

Lemma calculate_step_counters self acc st acc' :
  calculate_step self acc st = Ok acc' ->
  loss_sum acc' = fadd (loss_sum acc) (np_mean (eval_loss st))
  /\ acc_step acc' = acc_step acc + run_step st
  /\ acc_examples acc' = acc_examples acc + run_examples st.
Proof.
  unfold calculate_step.
  intros (max_len & _ & (pairs & _ & [= <-])%bind_Ok)%bind_Ok. simpl.
  repeat split.
Qed.

Lemma for_fold_counters self run_states : forall acc0 acc,
  for_fold (calculate_step self) acc0 run_states = Ok acc ->
  loss_sum acc =
    foldl (fun sum st => fadd sum (np_mean (eval_loss st)))
          (loss_sum acc0) run_states
  /\ acc_step acc = acc_step acc0 + foldr Z.add 0 (run_step <$> run_states)
  /\ acc_examples acc =
       acc_examples acc0 + foldr Z.add 0 (run_examples <$> run_states).
Proof.
  induction run_states as [|st rs IH]; intros acc0 acc; simpl.
  - intros [= <-]. repeat split; try done; lia.
  - intros (acc1 & (Hl & Hs & He)%calculate_step_counters & Hrest)%bind_Ok.
    apply IH in Hrest as (-> & -> & ->). rewrite Hl, Hs, He. simpl.
    repeat split; try done; symmetry; apply Z.add_assoc.
Qed.

(** X6: the average loss that [_calculate_metrics] returns is the sum of
    the mean losses of the batches divided by the number of examples of
    the run, and the speed is the number of steps divided by the time
    elapsed since the first run state began. *)
Theorem calculate_metrics_averages (self : TextGenerationTask) (now : F)
    (first : eval_state) (rest : list eval_state)
    (scores : list (string * F)) (avg_loss run_speed : F) :
  _calculate_metrics self now (first :: rest) =
    Ok (scores, avg_loss, run_speed) ->
  avg_loss =
    fdiv (foldl (fun sum st => fadd sum (np_mean (eval_loss st)))
                (f_of_int 0) (first :: rest))
         (f_of_int (foldr Z.add 0 (run_examples <$> first :: rest)))
  /\ run_speed =
       fdiv (f_of_int (foldr Z.add 0 (run_step <$> first :: rest)))
            (fsub now (run_time_begin first)).
Proof.
  unfold _calculate_metrics.
  intros (acc & Hloop & Hrest)%bind_Ok.
  apply for_fold_counters in Hloop as (Hl & Hs & He). simpl in Hl, Hs, He.
  change (py_getitem (first :: rest) 0) with (Ok first) in Hrest.
  simpl in Hrest.
  destruct (f_is_zero _); [done|]. simpl in Hrest.
  apply bind_Ok in Hrest as (scores' & _ & [= _ <- <-]).
  by rewrite Hl, Hs, He.
Qed.

(** X7: a run state without sequence lengths, reached after run states
    that were processed, makes [_calculate_metrics] raise
    [ZeroDivisionError], the batch size being the divisor of the
    maximal length. *)
Theorem calculate_metrics_empty_batch (self : TextGenerationTask) (now : F)
    (before after : list eval_state) (st : eval_state) (acc : metric_acc) :
  calculate_loop self before = Ok acc ->
  eval_lens st = [] ->
  _calculate_metrics self now (before ++ st :: after) =
    Raise ZeroDivisionError.
Proof.
  unfold _calculate_metrics, calculate_loop. intros Hbefore Hlens.
  rewrite for_fold_app, Hbefore.
  assert (calculate_step self acc st = Raise ZeroDivisionError) as Hstep.
  { unfold calculate_step. by rewrite Hlens. }
  simpl. by rewrite Hstep.
Qed.

Lemma length_eval_samples (run_states : list eval_state) :
  length (eval_samples run_states) =
    sum_list ((fun st => length (eval_lens st)) <$> run_states).
Proof.
  unfold eval_samples. induction run_states as [|st rs IH]; [done|].
  rewrite !fmap_cons. simpl. rewrite length_app, IH. f_equal.
  unfold py_range. by rewrite !length_fmap, length_seq, Nat2Z.id.
Qed.

(** X8: the loop over the run states collects one label sequence and one
    inferred sequence for every sequence length of every batch, so the
    two corpora handed to [compute_bleu] are of one length. *)
Theorem calculate_loop_aligned (self : TextGenerationTask)
    (run_states : list eval_state) (acc : metric_acc) :
  calculate_loop self run_states = Ok acc ->
  length (acc_labels acc) =
    sum_list ((fun st => length (eval_lens st)) <$> run_states)
  /\ length (acc_results acc) = length (acc_labels acc).
Proof.
  intros (labels & results & Hl & Hr & Hlabels & Hresults)%for_fold_truncated.
  simpl in Hl, Hr. rewrite Hl, Hr.
  apply Forall2_length in Hlabels, Hresults.
  by rewrite <- Hlabels, <- Hresults, length_eval_samples.
Qed.

Lemma for_each_no_dataset self (ids : list Z) (tokens : list string) :
  dataset (base self) = None ->
  for_each (dataset_label self) ids = Ok tokens -> tokens = [].
Proof.
  intros Hnone. destruct ids as [|id ids]; simpl; [by intros [= <-]|].
  assert (exists e, dataset_label self id = Raise e) as [e ->]; [|done].
  unfold dataset_label. rewrite Hnone. by eexists.
Qed.

(** X9: for a task without a dataset the loop over the run states can
    only finish when it never has to look a label up: every sequence it
    has collected is empty. *)
Theorem calculate_loop_without_dataset (self : TextGenerationTask)
    (run_states : list eval_state) (acc : metric_acc) :
  dataset (base self) = None ->
  calculate_loop self run_states = Ok acc ->
  Forall (fun label => label = []) (acc_labels acc)
  /\ Forall (fun result => result = []) (acc_results acc).
Proof.
  intros Hnone Hloop. unfold calculate_loop in Hloop.
  refine (for_fold_invariant _
            (fun acc => Forall (fun label => label = []) (acc_labels acc)
                        /\ Forall (fun result => result = []) (acc_results acc))
            _ _ _ _ _ Hloop); [|split; constructor].
  intros acc0 st acc1 [Hl Hr] _. unfold calculate_step.
  intros (max_len & _ & (pairs & Hpairs & [= <-])%bind_Ok)%bind_Ok. simpl.
  apply for_each_Forall2 in Hpairs.
  assert (Forall (fun p : list string * list string => p.1 = [] /\ p.2 = [])
                 pairs) as Hempty.
  { eapply Forall2_Forall_r; [exact Hpairs|]. apply Forall_forall.
    intros i _ [label result] (len_i & _ & Hbody)%bind_Ok.
    apply bind_Ok in Hbody as (lab & Hlab & Hbody).
    apply bind_Ok in Hbody as (res' & Hres & [= <- <-]).
    split; eapply for_each_no_dataset; done. }
  split; apply Forall_app; (split; [done|]); apply Forall_fmap;
    (eapply Forall_impl; [exact Hempty|]); by intros ? [??].
Qed.
End MetricsProperties.

(** ** The decoder cell and the network *)

Lemma py_range_lookup (n : Z) (k : nat) (i : Z) :
  py_range n !! k = Some i <-> (k < Z.to_nat n)%nat /\ i = Z.of_nat k.
Proof.
  unfold py_range. rewrite list_lookup_fmap. split.
  - destruct (seq 0 (Z.to_nat n) !! k) as [j|] eqn:Hj; [|done].
    apply lookup_seq in Hj as [-> Hlt]. by intros [= <-].
  - intros [Hlt ->]. by rewrite lookup_seq_lt.
Qed.

Lemma find_index_lookup (x : string) (l : list string) (i : nat) :
  find_index x l = Some i -> l !! i = Some x.
Proof.
  revert i. induction l as [|y l IH]; intros i; simpl; [done|].
  destruct (decide (x = y)) as [->|Hne]; [by intros [= <-]|].
  destruct (find_index x l) as [j|]; [|done]. intros [= <-]. by apply IH.
Qed.

Section CellProperties.
Context `{StaticGraph}.

Lemma LSTMCell_init_Ok (input_size hidden_size : Z) (c : LSTMCell) :
  LSTMCell__init__ input_size hidden_size = Ok c ->
  lstm_input_size c = input_size
  /\ lstm_hidden_size c = hidden_size
  /\ 0 < hidden_size.
Proof.
  unfold LSTMCell__init__.
  destruct (LSTMCell_error input_size hidden_size) as [e|] eqn:Herr; [done|].
  intros [= <-]. do 2 (split; [done|]).
  destruct (Z_lt_le_dec 0 hidden_size) as [|Hle]; [done|].
  destruct (LSTMCell_hidden_size_positive input_size hidden_size Hle)
    as [msg Hmsg].
  congruence.
Qed.

(** What a constructor call of the cell that returns has built. *)
Lemma cell_init_Ok (num_layers input_size hidden_size : Z)
    (dropout_prob : Q) (init_scale : option Q) (cell : AttentionDecoderCell) :
  AttentionDecoderCell__init__ num_layers input_size hidden_size
    dropout_prob init_scale = Ok cell ->
  cell_num_layers cell = num_layers
  /\ cell_hidden_size cell = hidden_size
  /\ cell_dropout_prob cell = dropout_prob
  /\ Forall2 (fun i c =>
                LSTMCell__init__
                  (if i =? 0 then input_size + hidden_size else hidden_size)
                  hidden_size = Ok c)
             (py_range num_layers) (cell_lstm_cells cell).
Proof.
  unfold AttentionDecoderCell__init__.
  intros (lstm_cells & Hcells%for_each_Forall2 & [= <-])%bind_Ok.
  by simpl.
Qed.

Lemma cell_init_hidden_positive (num_layers input_size hidden_size : Z)
    (dropout_prob : Q) (init_scale : option Q) (cell : AttentionDecoderCell) :
  AttentionDecoderCell__init__ num_layers input_size hidden_size
    dropout_prob init_scale = Ok cell ->
  1 <= num_layers -> 0 < hidden_size.
Proof.
  intros (_ & _ & _ & Hcells)%cell_init_Ok Hlayers.
  assert (py_range num_layers !! 0%nat = Some 0) as Hfirst
    by (apply py_range_lookup; split; [lia|done]).
  destruct (Forall2_lookup_l _ _ _ _ _ Hcells Hfirst) as (c & _ & Hc).
  by apply LSTMCell_init_Ok in Hc as (_ & _ & Hpos).
Qed.

Lemma length_cell_init (num_layers input_size hidden_size : Z)
    (dropout_prob : Q) (init_scale : option Q) (cell : AttentionDecoderCell) :
  AttentionDecoderCell__init__ num_layers input_size hidden_size
    dropout_prob init_scale = Ok cell ->
  length (cell_lstm_cells cell) = Z.to_nat num_layers.
Proof.
  intros (_ & _ & _ & Hcells%Forall2_length)%cell_init_Ok.
  rewrite <- Hcells. unfold py_range. by rewrite length_fmap, length_seq.
Qed.

(** X10: when the constructor of the cell returns, the cell has
    [num_layers] LSTM cells, none for a number of layers below one, all
    of the hidden size of the cell; the first takes the step input joined
    with the input feed, and every other cell takes what the cell before
    it puts out.  It returns with a layer only for a positive hidden
    size: [LSTMCell] raises [ValueError] for any other. *)
Theorem decoder_cell_layers (num_layers input_size hidden_size : Z)
    (dropout_prob : Q) (init_scale : option Q) (cell : AttentionDecoderCell) :
  AttentionDecoderCell__init__ num_layers input_size hidden_size
    dropout_prob init_scale = Ok cell ->
  length (cell_lstm_cells cell) = Z.to_nat num_layers
  /\ (forall k c, cell_lstm_cells cell !! k = Some c ->
        lstm_hidden_size c = hidden_size
        /\ lstm_input_size c =
             match k with
             | O => input_size + hidden_size
             | S _ => hidden_size
             end)
  /\ (forall k c c',
        cell_lstm_cells cell !! k = Some c ->
        cell_lstm_cells cell !! S k = Some c' ->
        lstm_input_size c' = lstm_hidden_size c)
  /\ (1 <= num_layers -> 0 < hidden_size)
  /\ (hidden_size <= 0 -> cell_lstm_cells cell = []).
Proof.
  intros Hinit.
  pose proof (length_cell_init _ _ _ _ _ _ Hinit) as Hlen.
  pose proof (cell_init_hidden_positive _ _ _ _ _ _ Hinit) as Hpos.
  destruct (cell_init_Ok _ _ _ _ _ _ Hinit) as (_ & _ & _ & Hcells).
  assert (forall k c,
            cell_lstm_cells cell !! k = Some c ->
            lstm_hidden_size c = hidden_size
            /\ lstm_input_size c =
                 match k with
                 | O => input_size + hidden_size
                 | S _ => hidden_size
                 end) as Hcell.
  { intros k c Hk.
    destruct (Forall2_lookup_r _ _ _ _ _ Hcells Hk) as (i & Hi & Hc).
    apply py_range_lookup in Hi as [_ ->].
    apply LSTMCell_init_Ok in Hc as (-> & -> & _).
    split; [done|]. by destruct k. }
  split; [done|]. split; [done|]. split; [|split; [done|]].
  - intros k c c' Hc Hc'.
    apply Hcell in Hc as [-> _]. by apply Hcell in Hc' as [_ ->].
  - intros Hle. apply length_zero_iff_nil. rewrite Hlen.
    destruct (Z_lt_le_dec num_layers 1) as [|Hge]; [lia|].
    specialize (Hpos Hge). lia.
Qed.
End CellProperties.

Section NetworkProperties.
Context `{Hub}.
Context `{StaticGraph}.


End NetworkProperties.

Section TokenIds.
Context `{Hub}.
Context `{StaticGraph}.

(** X14: the ids the beam search starts and ends with are the positions of
    [start_token] and [end_token] in the label list: looking them up in
    the label list, as post-processing does with decoded ids, gives the
    two tokens back.  The embedding table and the output layer of the
    decoder have one entry per label. *)
Theorem build_net_token_ids (self : TextGenerationTask)
    (decoder : BeamSearchDecoder) (lstm_states : list (tensor * tensor))
    (input_feed : tensor) (max_step_num : Z) (enc_output mask : tensor)
    (attrs : net_attrs) :
  _build_net self =
    Ok (OutVar (DynamicDecode decoder lstm_states input_feed max_step_num
                  enc_output mask), attrs) ->
  py_getitem (_label_list (base self)) (bsd_start_token decoder) =
    Ok (start_token self)
  /\ py_getitem (_label_list (base self)) (bsd_end_token decoder) =
       Ok (end_token self)
  /\ (emb_size (bsd_embedding_fn decoder)).1 =
       Z.of_nat (length (_label_list (base self)))
  /\ out_size (bsd_output_fn decoder) =
       Z.of_nat (length (_label_list (base self))).
Proof.
  intros (input_size & dec_cell & start_id & end_id & _ & _ & _ & Hstart
          & Hend & _ & Hout & _)%build_net_inv.
  simpl in Hout. injection Hout as -> _ _ _ _ _. simpl.
  rewrite !py_getitem_nat.
  by rewrite (find_index_lookup _ _ _ Hstart), (find_index_lookup _ _ _ Hend).
Qed.
End TokenIds.

(** ** One step of the decoder cell *)

Lemma bind_Value {A B : Type} (m : outcome A) (k : A -> outcome B) (b : B) :
  m ≫= k = Value b <-> exists a, m = Value a /\ k a = Value b.
Proof.
  destruct m as [a|e|]; simpl.
  - split; [eauto | intros (a' & [= <-] & ?); done].
  - split; [done | intros (a' & [=] & _)].
  - split; [done | intros (a' & [=] & _)].
Qed.

Lemma outcome_fold_ext {A S : Type} (f g : S -> A -> outcome S) (s : S)
    (l : list A) :
  (forall s a, f s a = g s a) -> outcome_fold f s l = outcome_fold g s l.
Proof.
  intros Hext. revert s. induction l as [|a l IH]; intros s; simpl; [done|].
  rewrite Hext. destruct (g s a); simpl; [apply IH|done|done].
Qed.

Section ForwardProperties.
Context `{Paddle}.
Variable lstm : LSTMCell -> tensor2 -> tensor2 * tensor2 ->
                option (tensor2 * (tensor2 * tensor2)).

Lemma forward_layer_Value dropout_fn self lstm_states acc i acc' :
  forward_layer lstm dropout_fn self lstm_states acc i = Value acc' ->
  (exists state, py_getitem lstm_states i = Ok state)
  /\ length acc'.2 = S (length acc.2).
Proof.
  destruct acc as [step_input new_lstm_states]. unfold forward_layer.
  intros (cell & _ & Hrest)%bind_Value.
  apply bind_Value in Hrest as (state & Hstate & Hrest).
  apply bind_Value in Hrest as ([out new_state] & _ & [= <-]).
  split.
  - destruct (py_getitem lstm_states i); [by eexists|done].
  - simpl. rewrite length_app. simpl. lia.
Qed.

Lemma forward_layers_Value dropout_fn self lstm_states l : forall acc acc',
  outcome_fold (forward_layer lstm dropout_fn self lstm_states) acc l
    = Value acc' ->
  Forall (fun i => exists state, py_getitem lstm_states i = Ok state) l
  /\ length acc'.2 = (length acc.2 + length l)%nat.
Proof.
  induction l as [|i l IH]; intros acc acc'; simpl.
  - intros [= <-]. split; [constructor|lia].
  - intros (acc1 & [Hstate Hlen]%forward_layer_Value & Hrest)%bind_Value.
    apply IH in Hrest as [Hall Hlen']. split; [by constructor|lia].
Qed.

(** X15: a step that returns a value returns states of the structure the
    next step expects: one new pair of LSTM states per layer, and its
    output as the new input feed.  It can only return a value when it
    was given at least one pair of states per layer. *)
Theorem forward_keeps_state_structure dropout_fn (self : AttentionDecoderCell)
    (dec_memory_w dec_out_w : fc_params) (step_input : tensor2)
    (lstm_states : list (tensor2 * tensor2)) (input_feed : tensor2)
    (enc_output : tensor3) (enc_padding_mask : option tensor2)
    (out : tensor2) (new_lstm_states : list (tensor2 * tensor2))
    (new_input_feed : tensor2) :
  forward lstm dropout_fn self dec_memory_w dec_out_w step_input
    (lstm_states, input_feed) enc_output enc_padding_mask =
    Value (out, (new_lstm_states, new_input_feed)) ->
  new_input_feed = out
  /\ length new_lstm_states = Z.to_nat (cell_num_layers self)
  /\ (Z.to_nat (cell_num_layers self) <= length lstm_states)%nat.
Proof.
  unfold forward.
  intros (x & _ & Hrest)%bind_Value.
  apply bind_Value in Hrest as ([x' states'] & Hloop & Hrest).
  apply bind_Value in Hrest as (att & _ & Hrest).
  apply bind_Value in Hrest as (att' & _ & Hrest).
  apply bind_Value in Hrest as (cat & _ & [= <- <- <-]).
  apply forward_layers_Value in Hloop as [Hstates Hlen]. simpl in Hlen.
  assert (length (py_range (cell_num_layers self))
          = Z.to_nat (cell_num_layers self)) as Hrange
    by (unfold py_range; by rewrite length_fmap, length_seq).
  split; [done|]. split; [lia|].
  destruct (decide (Z.to_nat (cell_num_layers self) <= length lstm_states)%nat)
    as [|Hfew]; [done|]. exfalso.
  rewrite Forall_lookup in Hstates.
  destruct (Hstates (length lstm_states) (Z.of_nat (length lstm_states)))
    as [state Hstate].
  { apply py_range_lookup. split; [lia|done]. }
  by rewrite py_getitem_nat, lookup_ge_None_2 in Hstate.
Qed.

(** X16: with a dropout rate that is not positive the step does not call
    the dropout at all: it is the same step whatever the dropout does. *)
Theorem forward_without_dropout dropout_fn dropout_fn'
    (self : AttentionDecoderCell) (dec_memory_w dec_out_w : fc_params)
    (step_input : tensor2) (states : cell_states) (enc_output : tensor3)
    (enc_padding_mask : option tensor2) :
  (cell_dropout_prob self <= 0)%Q ->
  forward lstm dropout_fn self dec_memory_w dec_out_w step_input states
    enc_output enc_padding_mask =
  forward lstm dropout_fn' self dec_memory_w dec_out_w step_input states
    enc_output enc_padding_mask.
Proof.
  intros Hrate. unfold forward. destruct states as [lstm_states input_feed].
  destruct (of_shape (concat1 step_input input_feed)) as [x| |]; simpl;
    [|done..].
  rewrite (outcome_fold_ext _
             (forward_layer lstm dropout_fn' self lstm_states)); [done|].
  intros [x' new_states] i. unfold forward_layer.
  destruct (Qlt_le_dec 0 (cell_dropout_prob self)) as [Hpos|_]; [|done].
  by apply Qlt_not_le in Hpos.
Qed.
End ForwardProperties.

Section AttentionShape.
Context `{Paddle}.

Lemma squeeze1_singletons (rows : tensor2) :
  squeeze1 ((fun r => [r]) <$> rows) = Some rows.
Proof.
  unfold squeeze1. apply mapM_Some_2, Forall2_fmap_l.
  by apply Forall_Forall2_diag, Forall_forall.
Qed.

Lemma attention_rows (self : AttentionDecoderCell) (dec_memory_w : fc_params)
    (query : tensor2) (enc_output : tensor3) (mask : option tensor2) :
  length query = length enc_output ->
  length (fc_bias dec_memory_w) = Z.to_nat (cell_hidden_size self) ->
  Forall (fun q => length q = Z.to_nat (cell_hidden_size self)) query ->
  (forall m, mask = Some m ->
     tensor_bool m = true
     /\ Forall2 (fun mr E => length mr = length E) m enc_output) ->
  exists R : tensor2,
    length R = length query
    /\ attention self dec_memory_w query enc_output mask =
         Some ((fun r => [r]) <$>
               zip_with (fun r M => vecmat (length (hd [] M)) (softmax_row r) M)
                        R
                        (fc_flatten2 (cell_hidden_size self) dec_memory_w
                                     enc_output)).
Proof.
  intros Hlen Hbias Hquery Hmask. unfold attention.
  rewrite matmul_transpose_y_scores by done. simpl.
  set (memory := fc_flatten2 (cell_hidden_size self) dec_memory_w enc_output).
  assert (length query = length memory) as Hmem.
  { unfold memory, fc_flatten2. by rewrite length_fmap. }
  pose proof (scores_lengths query memory Hmem) as Hscores.
  assert (forall R : tensor2,
            Forall2 (fun r M => length r = length M) R memory ->
            (weight_memory ← matmul (softmax ((fun r => [r]) <$> R)) memory;
             Some weight_memory) =
            Some ((fun r => [r]) <$>
                  zip_with
                    (fun r M => vecmat (length (hd [] M)) (softmax_row r) M)
                    R memory)) as Hweights.
  { intros R HR. rewrite matmul_weights by done. simpl.
    by rewrite zip_with_singleton. }
  destruct mask as [m|]; simpl.
  - destruct (Hmask m eq_refl) as [-> Hm].
    assert (Forall2 (fun M mr => length M = length mr)
                    memory (scale m 1000000000)) as Hm'.
    { unfold memory, fc_flatten2, scale. apply Forall2_fmap.
      apply Forall2_flip. eapply Forall2_impl; [exact Hm|].
      intros mr E Hl. simpl. by rewrite !length_fmap. }
    assert (Forall2 (fun r mr => length r = length mr)
                    (scores query memory) (scale m 1000000000)) as Hsm.
    { eapply Forall2_trans; [|exact Hscores|exact Hm']. simpl. congruence. }
    rewrite add_mask by done. simpl.
    exists (zip_with (zip_with fadd) (scores query memory)
                     (scale m 1000000000)).
    split; [|apply Hweights].
    + rewrite length_zip_with.
      apply Forall2_length in Hscores, Hsm.
      rewrite <- Hsm, Nat.min_id.
      etrans; [exact Hscores|symmetry; exact Hmem].
    + apply Forall2_same_length_lookup_2.
      { rewrite length_zip_with.
        apply Forall2_length in Hscores, Hm'. lia. }
      intros i r M (r0 & mr & -> & Hr0 & Hmr)%lookup_zip_with_Some HM.
      rewrite length_zip_with.
      pose proof (Forall2_lookup_lr _ _ _ _ _ _ Hscores Hr0 HM).
      pose proof (Forall2_lookup_lr _ _ _ _ _ _ Hm' HM Hmr). simpl in *. lia.
  - exists (scores query memory). split; [|by apply Hweights].
    apply Forall2_length in Hscores.
    etrans; [exact Hscores|symmetry; exact Hmem].
Qed.

(** X17: on tensors of matching shapes [attention] returns a tensor of
    shape batch x 1 x hidden: one row per query, of the width of the
    hidden size wherever the encoder output has a position.  The
    [squeeze] that [forward] applies to it therefore removes the middle
    dimension. *)
Theorem attention_output_shape (self : AttentionDecoderCell)
    (dec_memory_w : fc_params) (query : tensor2) (enc_output : tensor3)
    (mask : option tensor2) :
  length query = length enc_output ->
  length (fc_bias dec_memory_w) = Z.to_nat (cell_hidden_size self) ->
  Forall (fun q => length q = Z.to_nat (cell_hidden_size self)) query ->
  (forall m, mask = Some m ->
     tensor_bool m = true
     /\ Forall2 (fun mr E => length mr = length E) m enc_output) ->
  exists rows : tensor2,
    attention self dec_memory_w query enc_output mask =
      Some ((fun r => [r]) <$> rows)
    /\ squeeze1 ((fun r => [r]) <$> rows) = Some rows
    /\ length rows = length query
    /\ Forall2 (fun r E =>
                  E <> [] -> length r = Z.to_nat (cell_hidden_size self))
               rows enc_output.
Proof.
  intros Hlen Hbias Hquery Hmask.
  destruct (attention_rows self dec_memory_w query enc_output mask)
    as (R & HR & Hatt); [done..|].
  eexists. split; [exact Hatt|]. split; [apply squeeze1_singletons|].
  assert (length (fc_flatten2 (cell_hidden_size self) dec_memory_w enc_output)
          = length enc_output) as Hmem
    by (unfold fc_flatten2; by rewrite length_fmap).
  assert (length (zip_with
                    (fun r M => vecmat (length (hd [] M)) (softmax_row r) M)
                    R (fc_flatten2 (cell_hidden_size self) dec_memory_w
                                   enc_output)) = length query) as Hrows.
  { etrans; [apply length_zip_with|].
    etrans; [apply Nat.min_l|exact HR].
    apply Nat.eq_le_incl.
    etrans; [exact HR|]. etrans; [exact Hlen|symmetry; exact Hmem]. }
  split; [exact Hrows|].
  apply Forall2_same_length_lookup_2;
    [etrans; [exact Hrows|exact Hlen]|].
  intros i r E (r0 & M & -> & _ & HM)%lookup_zip_with_Some HE Hne.
  rewrite length_vecmat. unfold fc_flatten2 in HM.
  rewrite list_lookup_fmap in HM.
  assert (M = linear (Z.to_nat (cell_hidden_size self)) dec_memory_w <$> E)
    as ->.
  { apply fmap_Some in HM as (E' & HE' & ->). congruence. }
  destruct E as [|e E]; [done|]. simpl. by apply length_linear.
Qed.
End AttentionShape.

(** ** The unit tests of the hub module *)

Section TestSuite.
Context `{PoseModule}.

(** X18: when the download answers with status 200 and an image, and the
    working directory has no file [no.jpg], [setUpClass] stores the image
    as [tests/test.jpg] and each of the seven tests passes on the module
    as the specification describes it; with any other status
    [setUpClass] fails with the assertion ['Network Error.'] *)
Theorem test_suite_passes_after_setup (resp : response)
    (fs0 : gmap string file) (im : image) :
  fs0 !! "no.jpg" = None ->
  content resp = ImageFile im ->
  (status_code resp <> 200 ->
   setUpClass resp fs0 = Raise (AssertionError "Network Error."))
  /\ (status_code resp = 200 ->
      exists fs,
        setUpClass resp fs0 = Ok fs
        /\ cv2_imread fs "tests/test.jpg" = VArray im
        /\ test_keypoint_detection1 fs = Ok tt
        /\ test_keypoint_detection2 fs = Ok tt
        /\ test_keypoint_detection3 fs = Ok tt
        /\ test_keypoint_detection4 fs = Ok tt
        /\ test_keypoint_detection5 fs = Ok tt
        /\ test_keypoint_detection6 fs = Ok tt
        /\ test_save_inference_model fs = Ok tt).
Proof.
  intros Hno Hcontent. split.
  - intros Hstatus. unfold setUpClass.
    by destruct (Z.eqb_spec (status_code resp) 200).
  - intros Hstatus.
    assert (setUpClass resp fs0 =
              Ok (<[ "tests/test.jpg" := ImageFile im ]> fs0)) as Hsetup.
    { unfold setUpClass. by rewrite Hstatus, Hcontent. }
    eexists. split; [exact Hsetup|]. split.
    + unfold cv2_imread. by rewrite lookup_insert_eq.
    + by apply (unit_tests_pass resp fs0 _ im).
Qed.
End TestSuite.

(** ** The properties on the example inputs *)

Lemma postprocessing_raises_only_IndexError_witness :
  _postprocessing example_task [example_predict_state_no_lens] =
    Raise IndexError
  /\ IndexError = IndexError
  /\ exists seq_lens i sample beam_infer,
      (seq_lens, i, sample) ∈ predict_samples [example_predict_state_no_lens]
      /\ beam_infer ∈ rows (transpose sample)
      /\ (py_getitem seq_lens i = Raise IndexError
          \/ exists n id,
               py_getitem seq_lens i = Ok n
               /\ id ∈ py_slice_to beam_infer (n - 2)
               /\ py_getitem (_label_list (base example_task)) id
                  = Raise IndexError).
Proof.
  split; [reflexivity|].
  apply (postprocessing_raises_only_IndexError example_task
           [example_predict_state_no_lens] IndexError).
  reflexivity.
Defined.

Lemma postprocessing_result_shape_witness :
  exists results,
    _postprocessing example_task [example_predict_state] = Ok results
    /\ Forall (fun st => (dim1 (predict_infers st) <= 3)%nat
                         /\ dim2 (predict_infers st) = 2%nat)
              [example_predict_state]
    /\ length results =
         sum_list ((fun st => dim0 (predict_infers st))
                     <$> [example_predict_state])
    /\ Forall (fun beam_result =>
                 length beam_result = 2%nat
                 /\ Forall (fun seq_result => (length seq_result <= 3)%nat)
                           beam_result)
              results.
Proof.
  assert (Forall (fun st => (dim1 (predict_infers st) <= 3)%nat
                            /\ dim2 (predict_infers st) = 2%nat)
                 [example_predict_state]) as Hdims.
  { repeat constructor. }
  eexists. split; [vm_compute; reflexivity|]. split; [exact Hdims|].
  apply (postprocessing_result_shape example_task [example_predict_state]
           _ 3 2); [reflexivity|exact Hdims].
Defined.

Lemma postprocessing_short_seq_len_witness :
  exists results,
    _postprocessing example_task [example_predict_state_short] = Ok results
    /\ Forall2 (fun '(seq_lens, i, sample) beam_result =>
                  Forall2 (fun beam_infer seq_result =>
                             forall n, py_getitem seq_lens i = Ok n -> n < 2 ->
                               Forall2 (fun id tok =>
                                          py_getitem
                                            (_label_list (base example_task)) id
                                          = Ok tok)
                                       (take (length beam_infer
                                              - Z.to_nat (2 - n))
                                             beam_infer)
                                       seq_result)
                          (rows (transpose sample)) beam_result)
               (predict_samples [example_predict_state_short]) results.
Proof.
  eexists. split; [vm_compute; reflexivity|].
  apply (postprocessing_short_seq_len example_task
           [example_predict_state_short]).
  reflexivity.
Defined.

Lemma postprocessing_missing_seq_len_witness :
  example_predict_state_no_lens ∈ [example_predict_state_no_lens]
  /\ (length (predict_seq_len example_predict_state_no_lens)
      < dim0 (predict_infers example_predict_state_no_lens))%nat
  /\ (1 <= dim2 (predict_infers example_predict_state_no_lens))%nat
  /\ _postprocessing example_task [example_predict_state_no_lens] =
       Raise IndexError.
Proof.
  assert (example_predict_state_no_lens ∈ [example_predict_state_no_lens])
    as Hin by (repeat constructor).
  split; [exact Hin|]. split; [simpl; lia|]. split; [simpl; lia|].
  apply (postprocessing_missing_seq_len example_task
           [example_predict_state_no_lens] example_predict_state_no_lens Hin);
    simpl; lia.
Defined.

Lemma calculate_metrics_averages_witness :
  _calculate_metrics example_task 102 [example_eval_state] =
    Ok ([("bleu", 2)], 3, 0)
  /\ 3 = fdiv (foldl (fun sum st => fadd sum (np_mean (eval_loss st)))
                     (f_of_int 0) [example_eval_state])
              (f_of_int (foldr Z.add 0 (run_examples <$> [example_eval_state])))
  /\ 0 = fdiv (f_of_int (foldr Z.add 0 (run_step <$> [example_eval_state])))
              (@fsub example_paddle 102 (run_time_begin example_eval_state)).
Proof.
  split; [reflexivity|].
  apply (calculate_metrics_averages (H0:=example_hub) example_task 102
           example_eval_state [] [("bleu", 2)] 3 0).
  reflexivity.
Defined.

Lemma calculate_metrics_empty_batch_witness :
  exists acc,
    calculate_loop example_task [example_eval_state] = Ok acc
    /\ eval_lens example_eval_state_empty = []
    /\ _calculate_metrics example_task 102
         ([example_eval_state] ++ example_eval_state_empty :: []) =
         Raise ZeroDivisionError.
Proof.
  eexists. split; [vm_compute; reflexivity|]. split; [reflexivity|].
  eapply (calculate_metrics_empty_batch (H0:=example_hub) example_task 102
            [example_eval_state] [] example_eval_state_empty);
    reflexivity.
Defined.

Lemma calculate_loop_aligned_witness :
  exists acc,
    calculate_loop example_task [example_eval_state; example_eval_state_len2]
      = Ok acc
    /\ length (acc_labels acc) =
         sum_list ((fun st => length (eval_lens st))
                     <$> [example_eval_state; example_eval_state_len2])
    /\ length (acc_results acc) = length (acc_labels acc).
Proof.
  eexists. split; [vm_compute; reflexivity|].
  apply (calculate_loop_aligned example_task
           [example_eval_state; example_eval_state_len2]).
  reflexivity.
Defined.

Lemma calculate_loop_without_dataset_witness :
  exists acc,
    dataset (base example_task_no_dataset) = None
    /\ calculate_loop example_task_no_dataset [example_eval_state_len2]
       = Ok acc
    /\ Forall (fun label => label = []) (acc_labels acc)
    /\ Forall (fun result => result = []) (acc_results acc).
Proof.
  eexists. split; [reflexivity|]. split; [vm_compute; reflexivity|].
  apply (calculate_loop_without_dataset example_task_no_dataset
           [example_eval_state_len2]); reflexivity.
Defined.

Lemma decoder_cell_layers_witness :
  AttentionDecoderCell__init__ 1 8 2 0%Q None = Ok example_cell
  /\ length (cell_lstm_cells example_cell) = Z.to_nat 1
  /\ (forall k c, cell_lstm_cells example_cell !! k = Some c ->
        lstm_hidden_size c = 2
        /\ lstm_input_size c =
             match k with
             | O => 8 + 2
             | S _ => 2
             end)
  /\ (forall k c c',
        cell_lstm_cells example_cell !! k = Some c ->
        cell_lstm_cells example_cell !! S k = Some c' ->
        lstm_input_size c' = lstm_hidden_size c)
  /\ (1 <= 1 -> 0 < 2)
  /\ (2 <= 0 -> cell_lstm_cells example_cell = []).
Proof.
  split; [reflexivity|].
  apply (decoder_cell_layers 1 8 2 0%Q None example_cell). reflexivity.
Defined.



Lemma forward_keeps_state_structure_witness :
  exists out new_lstm_states new_input_feed,
    forward example_lstm example_dropout example_cell example_dec_memory_w
      example_dec_out_w example_step_input example_states example_enc_output
      (Some example_mask) =
      Value (out, (new_lstm_states, new_input_feed))
    /\ new_input_feed = out
    /\ length new_lstm_states = Z.to_nat (cell_num_layers example_cell)
    /\ (Z.to_nat (cell_num_layers example_cell)
        <= length example_states.1)%nat.
Proof.
  eexists _, _, _. split; [vm_compute; reflexivity|].
  apply (forward_keeps_state_structure example_lstm example_dropout
           example_cell example_dec_memory_w example_dec_out_w
           example_step_input example_states.1 example_states.2
           example_enc_output (Some example_mask)).
  reflexivity.
Defined.

Lemma forward_without_dropout_witness :
  (cell_dropout_prob example_cell <= 0)%Q
  /\ forward example_lstm example_dropout example_cell example_dec_memory_w
       example_dec_out_w example_step_input example_states example_enc_output
       (Some example_mask) =
     forward example_lstm example_dropout_id example_cell example_dec_memory_w
       example_dec_out_w example_step_input example_states example_enc_output
       (Some example_mask).
Proof.
  assert (cell_dropout_prob example_cell <= 0)%Q as Hrate
    by (unfold Qle; simpl; lia).
  split; [exact Hrate|].
  exact (forward_without_dropout example_lstm example_dropout
           example_dropout_id example_cell example_dec_memory_w
           example_dec_out_w example_step_input example_states
           example_enc_output (Some example_mask) Hrate).
Defined.

Lemma attention_output_shape_witness :
  length example_query = length example_enc_output
  /\ length (fc_bias example_dec_memory_w) =
       Z.to_nat (cell_hidden_size example_cell)
  /\ Forall (fun q => length q = Z.to_nat (cell_hidden_size example_cell))
            example_query
  /\ tensor_bool example_mask = true
  /\ Forall2 (fun mr E => length mr = length E) example_mask example_enc_output
  /\ exists rows : tensor2,
      attention example_cell example_dec_memory_w example_query
        example_enc_output (Some example_mask) =
        Some ((fun r => [r]) <$> rows)
      /\ squeeze1 ((fun r => [r]) <$> rows) = Some rows
      /\ length rows = length example_query
      /\ Forall2 (fun r E =>
                    E <> [] ->
                    length r = Z.to_nat (cell_hidden_size example_cell))
                 rows example_enc_output.
Proof.
  assert (Forall (fun q => length q = Z.to_nat (cell_hidden_size example_cell))
                 example_query) as Hquery by (repeat constructor).
  assert (Forall2 (fun mr E => length mr = length E)
                  example_mask example_enc_output) as Hmask
    by (repeat constructor).
  split; [reflexivity|]. split; [reflexivity|]. split; [exact Hquery|].
  split; [reflexivity|]. split; [exact Hmask|].
  apply (attention_output_shape example_cell example_dec_memory_w
           example_query example_enc_output (Some example_mask)
           eq_refl eq_refl Hquery).
  intros m [= <-]. split; [reflexivity|exact Hmask].
Defined.

Lemma build_net_token_ids_witness :
  exists decoder lstm_states input_feed max_step_num enc_output mask attrs,
    _build_net example_task_one_beam =
      Ok (OutVar (DynamicDecode decoder lstm_states input_feed max_step_num
                    enc_output mask), attrs)
    /\ py_getitem (_label_list (base example_task_one_beam))
         (bsd_start_token decoder) =
         Ok (start_token example_task_one_beam)
    /\ py_getitem (_label_list (base example_task_one_beam))
         (bsd_end_token decoder) =
         Ok (end_token example_task_one_beam)
    /\ (emb_size (bsd_embedding_fn decoder)).1 =
         Z.of_nat (length (_label_list (base example_task_one_beam)))
    /\ out_size (bsd_output_fn decoder) =
         Z.of_nat (length (_label_list (base example_task_one_beam))).
Proof.
  eexists _, _, _, _, _, _, _. split; [vm_compute; reflexivity|].
  eapply (build_net_token_ids example_task_one_beam). reflexivity.
Defined.

Lemma test_suite_passes_after_setup_witness :
  (∅ : gmap string file) !! "no.jpg" = None
  /\ content example_response = ImageFile example_image
  /\ (status_code example_response <> 200 ->
      setUpClass example_response ∅ = Raise (AssertionError "Network Error."))
  /\ (status_code example_response = 200 ->
      exists fs,
        setUpClass example_response ∅ = Ok fs
        /\ cv2_imread fs "tests/test.jpg" = VArray example_image
        /\ test_keypoint_detection1 fs = Ok tt
        /\ test_keypoint_detection2 fs = Ok tt
        /\ test_keypoint_detection3 fs = Ok tt
        /\ test_keypoint_detection4 fs = Ok tt
        /\ test_keypoint_detection5 fs = Ok tt
        /\ test_keypoint_detection6 fs = Ok tt
        /\ test_save_inference_model fs = Ok tt).
Proof.
  split; [reflexivity|]. split; [reflexivity|].
  apply (test_suite_passes_after_setup example_response ∅ example_image);
    reflexivity.
Defined.
